(** * Real-Time Jutsu Recognition System: chakra economy and gesture hold

    A shallow embedding of [src/modules/chakra_system.py], of
    [JutsuEngine.activate_jutsu] from [src/modules/jutsu_engine.py] and of
    [JutsuRecognitionApp.process_gesture] and lines 204-213 of
    [JutsuRecognitionApp.run] from [src/main.py]; and, for the further
    properties at the end, of the finger counting and recognition of
    [src/modules/gesture_detector.py], of the effect list of [JutsuEngine],
    and of the frame rate and key handling of [src/main.py].

    Conventions of the embedding.
    - Python numbers ([int] and [float]) are exact rationals [Q]; comparison
      is the order of [Q] and [x == y] is equality of values.  Floating-point
      rounding is outside the model.
    - Dictionaries keyed by strings are [gmap string _].
    - [time.time()] is an effect.  A call is run against a [Clock]: the
      sequence of values that the successive reads of the system clock
      return during that call.  "The call happens at time [t]" is the
      constant clock [at_time t].
    - Exceptions are a result of the computation ([Raise]); the object state
      reached when an exception is raised is kept, as in Python.
    - [print] and sound playback are not modelled.  What MediaPipe and
      OpenCV draw is not modelled either; a drawing call that can raise
      inside a modelled function ([draw_landmarks] in [get_gesture],
      [_render_effect] in [update_effects]) is an argument of the
      function, which tells whether the call raises. *)

From Stdlib Require Import QArith Qminmax Qround Lqa Lia List Ascii.
From stdpp Require Import gmap strings.

Local Open Scope string_scope.
Local Open Scope list_scope.

(** ** Numbers *)

(** [x < y] on Python numbers. *)
Definition Qltb (x y : Q) : bool := negb (Qle_bool y x).

(** Truth value of an [Optional[float]]: [None] and [0.0] are false. *)
Definition truthy_num (o : option Q) : bool :=
  match o with
  | None => false
  | Some x => negb (Qeq_bool x 0)
  end.

(** Truth value of an [Optional[str]]: [None] and the empty string are false. *)
Definition truthy_str (o : option string) : bool :=
  match o with
  | None => false
  | Some s => negb (String.eqb s "")
  end.

(** ** Computations that read the clock, mutate an object and may raise *)

Definition Clock : Type := nat -> Q.

Definition at_time (t : Q) : Clock := fun _ => t.

Inductive exn : Type :=
| KeyError (k : string)
| TypeError.

Inductive result (A : Type) : Type :=
| Ok (a : A)
| Raise (e : exn).
Arguments Ok {A} a.
Arguments Raise {A} e.

(** [m clk n s]: run [m] on object state [s] when [n] clock reads have been
    made so far in this call; returns the outcome, the number of reads made
    and the state reached. *)
Definition M (St A : Type) : Type := Clock -> nat -> St -> result A * nat * St.

Definition ret {St A} (a : A) : M St A := fun _ n s => (Ok a, n, s).

Definition bind {St A B} (m : M St A) (f : A -> M St B) : M St B :=
  fun clk n s =>
    match m clk n s with
    | (Ok a, n', s') => f a clk n' s'
    | (Raise e, n', s') => (Raise e, n', s')
    end.

Definition raise {St A} (e : exn) : M St A := fun _ n s => (Raise e, n, s).

Definition get {St} : M St St := fun _ n s => (Ok s, n, s).

Definition modify {St} (f : St -> St) : M St unit := fun _ n s => (Ok tt, n, f s).

(** [time.time()] *)
Definition time_time {St} : M St Q := fun clk n s => (Ok (clk n), S n, s).

(** [d[k]]: raises [KeyError] when [k] is absent. *)
Definition getitem {St V} (d : gmap string V) (k : string) : M St V :=
  match d !! k with
  | Some v => ret v
  | None => raise (KeyError k)
  end.

(** A value used as an operand of float arithmetic: [None] raises
    [TypeError]. *)
Definition as_float {St} (o : option Q) : M St Q :=
  match o with
  | Some x => ret x
  | None => raise TypeError
  end.

(** [k in d] *)
Definition contains {V} (d : gmap string V) (k : string) : bool :=
  match d !! k with
  | Some _ => true
  | None => false
  end.

(** Run a method of a sub-object held in a field. *)
Definition zoom {St Sub A} (proj : St -> Sub) (upd : Sub -> St -> St)
    (m : M Sub A) : M St A :=
  fun clk n s =>
    match m clk n (proj s) with
    | (r, n', sub') => (r, n', upd sub' s)
    end.

(** One call from outside: the clock starts at its first reading. *)
Definition call {St A} (m : M St A) (clk : Clock) (s : St) : result A * St :=
  match m clk 0%nat s with
  | (r, _, s') => (r, s')
  end.

#[global] Instance M_ret {St} : MRet (M St) := fun A => @ret St A.
#[global] Instance M_bind {St} : MBind (M St) := fun A B f m => bind m f.

(** ** Functions that do not go through [M] *)

(** The exceptions of the functions modelled outside [M]: a function that
    may raise one of them returns [inl e] for [raise e] and [inr v] for
    [return v]. *)
Inductive pyexn : Type :=
| ZeroDivisionError
| IndexError
| ValueError
| CvError.

#[global] Instance pyexn_ret : MRet (sum pyexn) := fun A a => inr a.
#[global] Instance pyexn_bind : MBind (sum pyexn) :=
  fun A B f r => match r with inl e => inl e | inr a => f a end.
#[global] Instance pyexn_fmap : FMap (sum pyexn) :=
  fun A B f r => match r with inl e => inl e | inr a => inr (f a) end.

(** [l[i]] for an index [i >= 0]: raises [IndexError] out of range. *)
Definition index {A} (l : list A) (i : nat) : pyexn + A :=
  match l !! i with
  | Some a => inr a
  | None => inl IndexError
  end.

(** [ord(c)] *)
Definition ord (c : Ascii.ascii) : Z := Z.of_nat (Ascii.nat_of_ascii c).

(** [int(x)] of a float: the integer part, rounded towards zero. *)
Definition int_of (x : Q) : Z := Z.quot (Qnum x) (Zpos (Qden x)).

(** ** [class ChakraSystem] *)

Module ChakraSystem.

Record t : Type := mk {
  max_chakra : Q;
  current_chakra : Q;
  regen_rate : Q;
  jutsu_costs : gmap string Q;
  cooldowns : gmap string Q;
  cooldown_durations : gmap string Q
}.

Definition set_current_chakra (v : Q) (self : t) : t :=
  mk (max_chakra self) v (regen_rate self) (jutsu_costs self)
     (cooldowns self) (cooldown_durations self).

Definition set_cooldowns (c : gmap string Q) (self : t) : t :=
  mk (max_chakra self) (current_chakra self) (regen_rate self)
     (jutsu_costs self) c (cooldown_durations self).

(** [__init__(self, max_chakra=100, regen_rate=0.5)] *)
Definition init (max_chakra regen_rate : Q) : t :=
  {| max_chakra := max_chakra;
     current_chakra := max_chakra;
     regen_rate := regen_rate;
     jutsu_costs :=
       list_to_map
         [("Fist", 30%Q); ("Open Palm", 25%Q); ("Peace Sign", 40%Q);
          ("Thumbs Up", 20%Q); ("Rock Sign", 35%Q); ("Gun Sign", 30%Q);
          ("Three Fingers", 25%Q); ("Point", 15%Q)];
     cooldowns := ∅;
     cooldown_durations :=
       list_to_map
         [("Fist", 2.0%Q); ("Open Palm", 3.0%Q); ("Peace Sign", 4.0%Q);
          ("Thumbs Up", 2.0%Q); ("Rock Sign", 3.5%Q); ("Gun Sign", 2.5%Q);
          ("Three Fingers", 2.0%Q); ("Point", 1.5%Q)] |}.

(** [can_use_jutsu(self, jutsu_name)] *)
Definition can_use_jutsu (jutsu_name : string) : M t bool :=
  (self ← get;
   if negb (contains (jutsu_costs self) jutsu_name) then ret false
   else
     cost ← getitem (jutsu_costs self) jutsu_name;
     if Qltb (current_chakra self) cost then ret false
     else if contains (cooldowns self) jutsu_name then
       now ← time_time;
       ends ← getitem (cooldowns self) jutsu_name;
       if Qltb now ends then ret false else ret true
     else ret true).

(** [use_jutsu(self, jutsu_name)] *)
Definition use_jutsu (jutsu_name : string) : M t bool :=
  (ok ← can_use_jutsu jutsu_name;
   if negb ok then ret false
   else
     self ← get;
     cost ← getitem (jutsu_costs self) jutsu_name;
     modify (fun self => set_current_chakra (current_chakra self - cost)%Q self);;
     self ← get;
     let cooldown_duration :=
       default 2.0%Q (cooldown_durations self !! jutsu_name) in
     now ← time_time;
     modify (fun self =>
               set_cooldowns (<[jutsu_name := (now + cooldown_duration)%Q]>
                                (cooldowns self)) self);;
     ret true).

(** [regenerate(self)] *)
Definition regenerate (self : t) : t :=
  if Qltb (current_chakra self) (max_chakra self) then
    set_current_chakra
      (Qmin (max_chakra self) (current_chakra self + regen_rate self)) self
  else self.

(** [reset(self)] *)
Definition reset (self : t) : t :=
  set_cooldowns ∅ (set_current_chakra (max_chakra self) self).

(** [get_cooldown_remaining(self, jutsu_name)] *)
Definition get_cooldown_remaining (jutsu_name : string) : M t Q :=
  self ← get;
  if negb (contains (cooldowns self) jutsu_name) then ret 0.0%Q
  else
    ends ← getitem (cooldowns self) jutsu_name;
    now ← time_time;
    let remaining := (ends - now)%Q in
    ret (Qmax 0.0 remaining).

(** [get_chakra_percentage(self)] *)
Definition get_chakra_percentage (self : t) : pyexn + Q :=
  if Qeq_bool (max_chakra self) 0 then inl ZeroDivisionError
  else inr ((current_chakra self / max_chakra self) * 100)%Q.

(** [get_chakra_color(self)]: a BGR triple. *)
Definition get_chakra_color (self : t) : pyexn + (Z * Z * Z) :=
  percentage ← get_chakra_percentage self;
  if Qltb 60 percentage then inr (0, 255, 0)%Z
  else if Qltb 30 percentage then inr (0, 255, 255)%Z
  else inr (0, 0, 255)%Z.

End ChakraSystem.

(** ** [class JutsuEngine] (activation and the bookkeeping of effects) *)

Module JutsuEngine.

(** An entry of [active_effects]: the dict with keys
    ["name"], ["start_time"], ["progress"]. *)
Record effect : Type := mk_effect {
  name : string;
  start_time : Q;
  progress : Q
}.

Record t : Type := mk {
  jutsu_map : gmap string string;
  active_effects : list effect
}.

(** The gesture table and the empty effect list set up by [__init__]. *)
Definition init : t :=
  {| jutsu_map :=
       list_to_map
         [("Fist", "Fire Style: Fireball Jutsu");
          ("Open Palm", "Shadow Clone Jutsu");
          ("Peace Sign", "Lightning Style: Chidori");
          ("Thumbs Up", "Water Style: Water Dragon");
          ("Rock Sign", "Earth Style: Rock Barrier");
          ("Gun Sign", "Wind Style: Air Bullet");
          ("Three Fingers", "Ice Style: Crystal Mirror");
          ("Point", "Gentle Fist: Chakra Strike")];
     active_effects := [] |}.

(** [activate_jutsu(self, gesture)] *)
Definition activate_jutsu (gesture : string) : M t (option string) :=
  self ← get;
  if contains (jutsu_map self) gesture then
    jutsu_name ← getitem (jutsu_map self) gesture;
    now ← time_time;
    modify (fun self =>
              mk (jutsu_map self)
                 (active_effects self ++ [mk_effect jutsu_name now 0.0%Q]));;
    ret (Some jutsu_name)
  else ret None.

(** [get_jutsu_name(self, gesture)] *)
Definition get_jutsu_name (gesture : string) (self : t) : option string :=
  jutsu_map self !! gesture.

(** [has_active_effects(self)] *)
Definition has_active_effects (self : t) : bool :=
  Nat.ltb 0 (length (active_effects self)).

(** [a == b] on two effect dicts: the same keys, equal values. *)
Definition effect_eqb (a b : effect) : bool :=
  String.eqb (name a) (name b)
  && Qeq_bool (start_time a) (start_time b)
  && Qeq_bool (progress a) (progress b).

(** [l.remove(x)]: drops the first item equal to [x]; [ValueError] when
    there is none. *)
Fixpoint list_remove (x : effect) (l : list effect) : pyexn + list effect :=
  match l with
  | [] => inl ValueError
  | item :: rest =>
      if effect_eqb item x then inr rest
      else rest' ← list_remove x rest; inr (item :: rest')
  end.

(** The first loop of [update_effects], lines 131-146, over the effects
    still to visit.  Returns the exception raised, if any, the visited list
    with [progress] updated in place, and [effects_to_remove].
    [effect_duration] is the attribute of that name, [current_time] the
    local variable.  [render_effect] stands for the call
    [self._render_effect(frame, effect)], which draws with OpenCV on the
    frame of this call: it is given the effect as just updated and tells
    whether the drawing raises; it does not change the effect. *)
Fixpoint scan_effects (render_effect : effect -> option pyexn)
    (effect_duration current_time : Q) (effects : list effect)
  : option pyexn * list effect * list effect :=
  match effects with
  | [] => (None, [], [])
  | effect :: rest =>
      let elapsed := (current_time - start_time effect)%Q in
      if Qltb effect_duration elapsed then
        let '(r, effects', to_remove) :=
          scan_effects render_effect effect_duration current_time rest in
        (r, effect :: effects', effect :: to_remove)
      else if Qeq_bool effect_duration 0 then
        (Some ZeroDivisionError, effect :: rest, [])
      else
        let progress := (elapsed / effect_duration)%Q in
        let effect' := mk_effect (name effect) (start_time effect) progress in
        match render_effect effect' with
        | Some e => (Some e, effect' :: rest, [])
        | None =>
            let '(r, effects', to_remove) :=
              scan_effects render_effect effect_duration current_time rest in
            (r, effect' :: effects', to_remove)
        end
  end.

(** The second loop of [update_effects], lines 147-148. *)
Fixpoint remove_effects (to_remove effects : list effect)
  : option pyexn * list effect :=
  match to_remove with
  | [] => (None, effects)
  | effect :: rest =>
      match list_remove effect effects with
      | inl e => (Some e, effects)
      | inr effects' => remove_effects rest effects'
      end
  end.

(** [update_effects(self, frame)].  The frame enters through
    [render_effect] (see [scan_effects]).  The attribute [effect_duration]
    (1.5 after [__init__]) is not a field of [t]; its value is an argument.
    The result has the shape of a computation of [M], with the exceptions
    of [pyexn]; an exception of the first loop leaves the second loop
    out. *)
Definition update_effects (render_effect : effect -> option pyexn)
    (effect_duration : Q) (clk : Clock) (n : nat)
    (self : t) : (pyexn + unit) * nat * t :=
  let current_time := clk n in
  match scan_effects render_effect effect_duration current_time
          (active_effects self) with
  | (Some e, effects, _) => (inl e, S n, mk (jutsu_map self) effects)
  | (None, effects, to_remove) =>
      match remove_effects to_remove effects with
      | (Some e, effects') => (inl e, S n, mk (jutsu_map self) effects')
      | (None, effects') => (inr tt, S n, mk (jutsu_map self) effects')
      end
  end.

End JutsuEngine.

(** ** [class GestureDetector] (finger counting and recognition) *)

Module GestureDetector.

(** A hand landmark; only the coordinates [x] and [y] are read. *)
Record landmark : Type := mk_landmark {
  x : Q;
  y : Q
}.

(** The attributes [finger_tips] and [finger_pips]. *)
Definition finger_tips : list nat := [4; 8; 12; 16; 20]%nat.
Definition finger_pips : list nat := [2; 6; 10; 14; 18]%nat.

(** [landmarks[self.finger_tips[i]]] and [landmarks[self.finger_pips[i]]] *)
Definition tip_and_pip (landmarks : list landmark) (i : nat)
  : pyexn + (landmark * landmark) :=
  tip_id ← index finger_tips i;
  tip ← index landmarks tip_id;
  pip_id ← index finger_pips i;
  pip ← index landmarks pip_id;
  inr (tip, pip).

(** [count_fingers(self, landmarks, hand_label)] *)
Definition count_fingers (landmarks : list landmark) (hand_label : string)
  : pyexn + list Z :=
  '(tip, pip) ← tip_and_pip landmarks 0;
  let thumb :=
    if String.eqb hand_label "Right" then
      (if Qltb (x tip) (x pip) then 1 else 0)%Z
    else
      (if Qltb (x pip) (x tip) then 1 else 0)%Z in
  others ← mapM (fun i =>
                   '(tip, pip) ← tip_and_pip landmarks i;
                   inr (if Qltb (y tip) (y pip) then 1 else 0)%Z)
                (seq 1 4);
  inr (thumb :: others).

(** [sum(fingers)] *)
Definition sum (fingers : list Z) : Z := fold_left Z.add fingers 0%Z.

(** [recognize_gesture(self, fingers)] *)
Definition recognize_gesture (fingers : list Z) : string :=
  let total := sum fingers in
  if (total =? 0)%Z then "Fist"
  else if (total =? 5)%Z then "Open Palm"
  else if bool_decide (fingers = [0; 1; 1; 0; 0]%Z) then "Peace Sign"
  else if bool_decide (fingers = [1; 0; 0; 0; 0]%Z) then "Thumbs Up"
  else if bool_decide (fingers = [0; 1; 0; 0; 1]%Z) then "Rock Sign"
  else if bool_decide (fingers = [1; 1; 0; 0; 0]%Z) then "Gun Sign"
  else if bool_decide (fingers = [1; 1; 1; 0; 0]%Z) then "Three Fingers"
  else if bool_decide (fingers = [0; 1; 0; 0; 0]%Z) then "Point"
  else "Unknown".

(** What [detect_hands] hands over: [results.multi_hand_landmarks] ([None]
    or the landmark lists of the hands) and, for each entry of
    [results.multi_handedness], its [classification[0].label]. *)
Record detection : Type := mk_detection {
  multi_hand_landmarks : option (list (list landmark));
  multi_handedness : list string
}.

(** [get_gesture(self, frame)] after [detect_hands]: the gesture and the
    landmarks returned.  [draw_landmarks] stands for the call
    [self.draw_landmarks(frame, hand_landmarks)] of line 152, which draws
    with MediaPipe on the frame of this call: it tells whether the drawing
    of these landmarks raises.  The [cv2.putText] of line 168 writes a
    text of constant size on the frame that [detect_hands] has converted
    and the drawing has accepted; it changes neither value returned and
    is left out. *)
Definition get_gesture (draw_landmarks : list landmark -> option pyexn)
    (results : detection)
  : pyexn + (option string * option (list landmark)) :=
  match multi_hand_landmarks results with
  | Some (hand_landmarks :: _) =>
      match draw_landmarks hand_landmarks with
      | Some e => inl e
      | None =>
          hand_label ← index (multi_handedness results) 0;
          fingers ← count_fingers hand_landmarks hand_label;
          inr (Some (recognize_gesture fingers), Some hand_landmarks)
      end
  | Some [] | None => inr (None, None)
  end.

End GestureDetector.

(** ** [class JutsuRecognitionApp] (gesture hold, frame rate, gated loop
    block and keys) *)

Module JutsuRecognitionApp.

Record t : Type := mk {
  jutsu_engine : JutsuEngine.t;
  chakra_system : ChakraSystem.t;
  last_gesture : option string;
  last_jutsu : option string;
  gesture_start_time : option Q;
  gesture_hold_duration : Q;
  paused : bool
}.

Definition set_jutsu_engine (e : JutsuEngine.t) (self : t) : t :=
  mk e (chakra_system self) (last_gesture self) (last_jutsu self)
     (gesture_start_time self) (gesture_hold_duration self) (paused self).

Definition set_chakra_system (c : ChakraSystem.t) (self : t) : t :=
  mk (jutsu_engine self) c (last_gesture self) (last_jutsu self)
     (gesture_start_time self) (gesture_hold_duration self) (paused self).

Definition set_last_gesture (g : option string) (self : t) : t :=
  mk (jutsu_engine self) (chakra_system self) g (last_jutsu self)
     (gesture_start_time self) (gesture_hold_duration self) (paused self).

Definition set_last_jutsu (j : option string) (self : t) : t :=
  mk (jutsu_engine self) (chakra_system self) (last_gesture self) j
     (gesture_start_time self) (gesture_hold_duration self) (paused self).

Definition set_gesture_start_time (o : option Q) (self : t) : t :=
  mk (jutsu_engine self) (chakra_system self) (last_gesture self)
     (last_jutsu self) o (gesture_hold_duration self) (paused self).

(** The fields set by [__init__]. *)
Definition init : t :=
  {| jutsu_engine := JutsuEngine.init;
     chakra_system := ChakraSystem.init 100 0.5;
     last_gesture := None;
     last_jutsu := None;
     gesture_start_time := None;
     gesture_hold_duration := 0.5;
     paused := false |}.

Definition on_chakra {A} (m : M ChakraSystem.t A) : M t A :=
  zoom chakra_system set_chakra_system m.

Definition on_engine {A} (m : M JutsuEngine.t A) : M t A :=
  zoom jutsu_engine set_jutsu_engine m.

(** [process_gesture(self, gesture)] *)
Definition process_gesture (gesture : option string) : M t unit :=
  match gesture with
  | None =>
      modify (set_last_gesture None);;
      modify (set_gesture_start_time None)
  | Some g =>
      if String.eqb g "Unknown" then
        modify (set_last_gesture None);;
        modify (set_gesture_start_time None)
      else
        self ← get;
        if negb (bool_decide (Some g = last_gesture self)) then
          modify (set_last_gesture (Some g));;
          now ← time_time;
          modify (set_gesture_start_time (Some now))
        else if truthy_num (gesture_start_time self) then
          now ← time_time;
          start ← as_float (gesture_start_time self);
          let hold_time := (now - start)%Q in
          if Qle_bool (gesture_hold_duration self) hold_time then
            (ok ← on_chakra (ChakraSystem.can_use_jutsu g);
             if (ok : bool) then
               used ← on_chakra (ChakraSystem.use_jutsu g);
               if (used : bool) then
                 jutsu_name ← on_engine (JutsuEngine.activate_jutsu g);
                 if truthy_str jutsu_name
                 then modify (set_last_jutsu jutsu_name)
                 else ret tt
               else ret tt
             else ret tt);;
            modify (set_gesture_start_time None)
          else ret tt
        else ret tt
  end.

(** Lines 204-213 of [run]: the pause gate and, under it, the processing
    of the label returned by [gesture_detector.get_gesture] and the
    regeneration.  The block under the gate goes on with
    [self.jutsu_engine.update_effects(frame)] (line 216), which is not part
    of this definition; that call assigns neither the chakra system nor the
    fields of the hold. *)
Definition run_tick (gesture : option string) : M t unit :=
  self ← get;
  if negb (paused self) then
    (if truthy_str gesture then process_gesture gesture else ret tt);;
    on_chakra (modify ChakraSystem.regenerate)
  else ret tt.

(** What the specification calls a confirmation, read off the state
    before and after a call: the call cleared a running hold timer and
    kept the held label.  Line 185 is the only statement of
    [process_gesture] that does so; see [update_cases]. *)
Definition confirmation (before after : t) : option string :=
  if truthy_num (gesture_start_time before)
     && bool_decide (gesture_start_time after = None)
     && bool_decide (last_gesture after = last_gesture before)
  then last_gesture after
  else None.

(** [GestureConfirmer.update(observedLabel, now)] of the specification:
    one call of [process_gesture], reporting the confirmation. *)
Definition update (gesture : option string) : M t (option string) :=
  before ← get;
  process_gesture gesture;;
  after ← get;
  ret (confirmation before after).

(** A series of [update] calls, one clock per call; stops at the first
    exception.  Returns what each call reported and the state reached. *)
Fixpoint updates (calls : list (option string * Clock)) (s : t)
  : list (option string) * t :=
  match calls with
  | [] => (@nil (option string), s)
  | (g, clk) :: rest =>
      match call (update g) clk s with
      | (Ok r, s') => let '(rs, s'') := updates rest s' in (r :: rs, s'')
      | (Raise _, s') => (@nil (option string), s')
      end
  end.

Definition set_paused (b : bool) (self : t) : t :=
  mk (jutsu_engine self) (chakra_system self) (last_gesture self)
     (last_jutsu self) (gesture_start_time self) (gesture_hold_duration self)
     b.

(** The keyboard handling of [run], lines 225-235, for the value returned
    by [cv2.waitKey(1)].  Returns [true] when the loop is left by [break]. *)
Definition handle_key (wait_key : Z) : M t bool :=
  let key := Z.land wait_key 255 in
  if ((key =? ord "q"%char) || (key =? 27))%Z then ret true
  else if (key =? ord "r"%char)%Z then
    on_chakra (modify ChakraSystem.reset);;
    ret false
  else if (key =? ord "p"%char)%Z then
    modify (fun self => set_paused (negb (paused self)) self);;
    ret false
  else ret false.

(** The attributes [prev_time] and [fps], which only [calculate_fps] and
    the display use. *)
Record fps_counter : Type := mk_fps_counter {
  prev_time : Q;
  fps : Z
}.

(** [calculate_fps(self)], on these two attributes; the result has the
    shape of a computation of [M], with the exceptions of [pyexn]. *)
Definition calculate_fps (clk : Clock) (n : nat) (self : fps_counter)
  : (pyexn + unit) * nat * fps_counter :=
  let current_time := clk n in
  if Qeq_bool (current_time - prev_time self) 0 then
    (inl ZeroDivisionError, S n, self)
  else
    let fps := (1 / (current_time - prev_time self))%Q in
    (inr tt, S n, mk_fps_counter current_time (int_of fps)).

End JutsuRecognitionApp.

(** * Vocabulary of the statements *)

(** The three conditions under which the specification lets action [a]
    be activated at time [t]: a registered cost, enough chakra, and no
    cooldown running ([cooldowns.get(a, t) <= t]). *)
Definition eligible (a : string) (t : Q) (s : ChakraSystem.t) : Prop :=
  exists c, ChakraSystem.jutsu_costs s !! a = Some c
            /\ (c <= ChakraSystem.current_chakra s)%Q
            /\ (default t (ChakraSystem.cooldowns s !! a) <= t)%Q.

(** The three reasons for which an activation is refused: unknown id,
    insufficient level, active cooldown. *)
Definition refused (a : string) (t : Q) (s : ChakraSystem.t) : Prop :=
  ChakraSystem.jutsu_costs s !! a = None
  \/ (exists c, ChakraSystem.jutsu_costs s !! a = Some c
                /\ (ChakraSystem.current_chakra s < c)%Q)
  \/ (exists e, ChakraSystem.cooldowns s !! a = Some e /\ (t < e)%Q).

(** [0 <= level <= capacity] *)
Definition level_in_range (s : ChakraSystem.t) : Prop :=
  (0 <= ChakraSystem.current_chakra s)%Q
  /\ (ChakraSystem.current_chakra s <= ChakraSystem.max_chakra s)%Q.

Definition costs_nonneg (s : ChakraSystem.t) : Prop :=
  forall a c, ChakraSystem.jutsu_costs s !! a = Some c -> (0 <= c)%Q.

(** What every operation keeps true once the object is constructed with a
    non-negative regeneration rate and non-negative costs. *)
Definition chakra_inv (s : ChakraSystem.t) : Prop :=
  level_in_range s /\ (0 <= ChakraSystem.regen_rate s)%Q /\ costs_nonneg s.

(** The operations a client can apply to a [ChakraSystem]; an activation
    attempt comes with the clock it runs against. *)
Inductive chakra_op : Type :=
| OpUseJutsu (a : string) (clk : Clock)
| OpRegenerate
| OpReset.

Definition apply_op (o : chakra_op) (s : ChakraSystem.t) : ChakraSystem.t :=
  match o with
  | OpUseJutsu a clk => snd (call (ChakraSystem.use_jutsu a) clk s)
  | OpRegenerate => ChakraSystem.regenerate s
  | OpReset => ChakraSystem.reset s
  end.

Definition apply_ops (ops : list chakra_op) (s : ChakraSystem.t)
  : ChakraSystem.t :=
  fold_left (fun s o => apply_op o s) ops s.

(** A multiple of one half.  Python's floats store such a number exactly
    up to 2^52, and add and subtract two of them without rounding. *)
Definition half_integral (q : Q) : Prop := exists z : Z, (q == z # 2)%Q.

(** The configuration of the application's chakra system,
    [ChakraSystem(max_chakra=100, regen_rate=0.5)] (main.py, line 29, and
    the defaults of the constructor), with the cost table of the
    constructor. *)
Definition app_config (s : ChakraSystem.t) : Prop :=
  ChakraSystem.max_chakra s = 100%Q
  /\ ChakraSystem.regen_rate s = 0.5%Q
  /\ ChakraSystem.jutsu_costs s
     = ChakraSystem.jutsu_costs (ChakraSystem.init 100 0.5).

(** The five ways a call of [update] can go: the three branches of
    [process_gesture], the last one split by its two nested tests. *)
Inductive update_case (g : option string) (clk : Clock)
    (s : JutsuRecognitionApp.t)
  : option string -> JutsuRecognitionApp.t -> Prop :=
| case_reset :
    g = None \/ g = Some "Unknown" ->
    update_case g clk s None
      (JutsuRecognitionApp.set_gesture_start_time None
         (JutsuRecognitionApp.set_last_gesture None s))
| case_new g0 :
    g = Some g0 -> g0 <> "Unknown" ->
    JutsuRecognitionApp.last_gesture s <> Some g0 ->
    update_case g clk s None
      (JutsuRecognitionApp.set_gesture_start_time (Some (clk 0%nat))
         (JutsuRecognitionApp.set_last_gesture (Some g0) s))
| case_stalled g0 :
    g = Some g0 -> g0 <> "Unknown" ->
    JutsuRecognitionApp.last_gesture s = Some g0 ->
    truthy_num (JutsuRecognitionApp.gesture_start_time s) = false ->
    update_case g clk s None s
| case_waiting g0 t0 :
    g = Some g0 -> g0 <> "Unknown" ->
    JutsuRecognitionApp.last_gesture s = Some g0 ->
    JutsuRecognitionApp.gesture_start_time s = Some t0 -> ~ (t0 == 0)%Q ->
    (clk 0%nat - t0 < JutsuRecognitionApp.gesture_hold_duration s)%Q ->
    update_case g clk s None s
| case_fired g0 t0 s' :
    g = Some g0 -> g0 <> "Unknown" ->
    JutsuRecognitionApp.last_gesture s = Some g0 ->
    JutsuRecognitionApp.gesture_start_time s = Some t0 -> ~ (t0 == 0)%Q ->
    (JutsuRecognitionApp.gesture_hold_duration s <= clk 0%nat - t0)%Q ->
    JutsuRecognitionApp.last_gesture s' = Some g0 ->
    JutsuRecognitionApp.gesture_start_time s' = None ->
    JutsuRecognitionApp.gesture_hold_duration s'
    = JutsuRecognitionApp.gesture_hold_duration s ->
    JutsuRecognitionApp.paused s' = JutsuRecognitionApp.paused s ->
    update_case g clk s (Some g0) s'.

(** A run of calls that all observe the same label. *)
Definition same_label (g : option string) (clks : list Clock)
  : list (option string * Clock) :=
  map (fun clk => (g, clk)) clks.


(** A run in which no call confirms. *)
Definition silent {X} (calls : list X) : list (option string) :=
  map (fun _ => None) calls.

(** A list of five finger states, each 0 or 1: what [count_fingers]
    returns. *)
Definition finger_states (fingers : list Z) : Prop :=
  length fingers = 5%nat /\ Forall (fun f => f = 0%Z \/ f = 1%Z) fingers.

(** The landmarks of the horizontally flipped image: normalised [x]
    becomes [1 - x]. *)
Definition mirror (landmarks : list GestureDetector.landmark)
  : list GestureDetector.landmark :=
  map (fun p => GestureDetector.mk_landmark
                  (1 - GestureDetector.x p) (GestureDetector.y p))
      landmarks.

(** An effect whose time is up at [now]: [now - start_time > duration]. *)
Definition expired (duration now : Q) (e : JutsuEngine.effect) : bool :=
  Qltb duration (now - JutsuEngine.start_time e).

(** An effect with its progress brought up to [now]. *)
Definition refreshed (duration now : Q) (e : JutsuEngine.effect)
  : JutsuEngine.effect :=
  JutsuEngine.mk_effect (JutsuEngine.name e) (JutsuEngine.start_time e)
    ((now - JutsuEngine.start_time e) / duration).

(** Drawing does not raise on any effect of the list that is drawn at
    [now], that is on the effects not expired, with their progress brought
    up to [now]. *)
Definition renders (render_effect : JutsuEngine.effect -> option pyexn)
    (duration now : Q) (effects : list JutsuEngine.effect) : Prop :=
  forall x, In x effects -> expired duration now x = false ->
            render_effect (refreshed duration now x) = None.

(** The effects that [update_effects] keeps, as a filter. *)
Definition surviving (duration now : Q) (effects : list JutsuEngine.effect)
  : list JutsuEngine.effect :=
  map (refreshed duration now)
      (List.filter (fun e => negb (expired duration now e)) effects).

(** Lines 175-182 of [process_gesture]: the activation attempt made when
    the hold is long enough. *)
Definition activation_block (g : string) : M JutsuRecognitionApp.t unit :=
  ok ← JutsuRecognitionApp.on_chakra (ChakraSystem.can_use_jutsu g);
  if (ok : bool) then
    used ← JutsuRecognitionApp.on_chakra (ChakraSystem.use_jutsu g);
    if (used : bool) then
      jutsu_name ← JutsuRecognitionApp.on_engine (JutsuEngine.activate_jutsu g);
      if truthy_str jutsu_name
      then modify (JutsuRecognitionApp.set_last_jutsu jutsu_name)
      else ret tt
    else ret tt
  else ret tt.

(** The two places of [run] that assign the chakra system, the hold
    fields and [paused]: the statements of lines 204-213 ([run_tick]), for
    a detected gesture and the clock during them, and the key handling of
    lines 225-235, for a value of [cv2.waitKey].  The other statements of an
    iteration ([cap.read], [calculate_fps], [get_gesture], [update_effects],
    [draw_ui], [cv2.imshow]) are not steps: they assign none of these
    fields, and when one of them raises the loop is left. *)
Inductive app_event : Type :=
| EvGesture (gesture : option string) (clk : Clock)
| EvKey (wait_key : Z).

(** The application state after a series of such steps; [None] when one of
    them raised.  The series ends at the key that leaves the loop. *)
Fixpoint app_run (events : list app_event) (s : JutsuRecognitionApp.t)
  : option JutsuRecognitionApp.t :=
  match events with
  | [] => Some s
  | EvGesture gesture clk :: rest =>
      match call (JutsuRecognitionApp.run_tick gesture) clk s with
      | (Ok _, s') => app_run rest s'
      | (Raise _, _) => None
      end
  | EvKey wait_key :: rest =>
      match call (JutsuRecognitionApp.handle_key wait_key) (at_time 0) s with
      | (Ok true, s') => Some s'
      | (Ok false, s') => app_run rest s'
      | (Raise _, _) => None
      end
  end.

(** What these steps keep true of the application. *)
Definition app_inv (s : JutsuRecognitionApp.t) : Prop :=
  chakra_inv (JutsuRecognitionApp.chakra_system s)
  /\ (JutsuRecognitionApp.gesture_start_time s <> None ->
      JutsuRecognitionApp.last_gesture s <> None).

(** * Properties *)

(** ** Comparisons *)

Lemma Qltb_true (x y : Q) : Qltb x y = true <-> (x < y)%Q.
Proof.
  unfold Qltb. rewrite negb_true_iff.
  destruct (Qle_bool y x) eqn:E.
  - apply Qle_bool_iff in E. split; [discriminate|].
    intros H. exfalso. exact (Qlt_not_le _ _ H E).
  - split; [intros _|reflexivity].
    apply Qnot_le_lt. intros H. apply Qle_bool_iff in H. congruence.
Qed.

Lemma Qltb_false (x y : Q) : Qltb x y = false <-> (y <= x)%Q.
Proof.
  unfold Qltb. rewrite negb_false_iff. apply Qle_bool_iff.
Qed.

(** ** Running a computation *)

Section Running.
Context {St A B : Type}.
Variables (clk : Clock) (n : nat) (s : St).

Lemma run_bind (m : M St A) (f : A -> M St B) :
  (m ≫= f) clk n s =
    match m clk n s with
    | (Ok a, n', s') => f a clk n' s'
    | (Raise e, n', s') => (Raise e, n', s')
    end.
Proof. reflexivity. Qed.

Lemma run_ret (a : A) : ret a clk n s = (Ok a, n, s).
Proof. reflexivity. Qed.

Lemma run_get : get clk n s = (Ok s, n, s).
Proof. reflexivity. Qed.

Lemma run_modify (f : St -> St) : modify f clk n s = (Ok tt, n, f s).
Proof. reflexivity. Qed.

Lemma run_time_time : time_time clk n s = (Ok (clk n), S n, s).
Proof. reflexivity. Qed.

End Running.

(** ** The equations of the chakra methods *)

Section ChakraEquations.
Import ChakraSystem.
Variables (a : string) (clk : Clock) (n : nat) (s : ChakraSystem.t).

Lemma can_use_jutsu_eq :
  can_use_jutsu a clk n s =
    match jutsu_costs s !! a with
    | None => (Ok false, n, s)
    | Some c =>
        if Qltb (current_chakra s) c then (Ok false, n, s)
        else match cooldowns s !! a with
             | None => (Ok true, n, s)
             | Some e => (Ok (negb (Qltb (clk n) e)), S n, s)
             end
    end.
Proof.
  unfold can_use_jutsu, mbind, M_bind, bind, get, getitem, contains.
  destruct (jutsu_costs s !! a) as [c|]; simpl; [|reflexivity].
  destruct (Qltb (current_chakra s) c); simpl; [reflexivity|].
  destruct (cooldowns s !! a) as [e|]; simpl; [|reflexivity].
  destruct (Qltb (clk n) e); reflexivity.
Qed.

Lemma use_jutsu_eq :
  use_jutsu a clk n s =
    match can_use_jutsu a clk n s with
    | (Ok true, n', _) =>
        match jutsu_costs s !! a with
        | Some c =>
            (Ok true, S n',
             set_cooldowns
               (<[a := (clk n' + default 2.0 (cooldown_durations s !! a))%Q]>
                  (cooldowns s))
               (set_current_chakra (current_chakra s - c)%Q s))
        | None => (Raise (KeyError a), n', s)
        end
    | (r, n', _) => (r, n', s)
    end.
Proof.
  unfold use_jutsu, mbind, M_bind, bind. rewrite can_use_jutsu_eq.
  unfold get, getitem.
  destruct (jutsu_costs s !! a) as [c|] eqn:Hc; simpl; [|reflexivity].
  destruct (Qltb (current_chakra s) c); simpl; [reflexivity|].
  destruct (cooldowns s !! a) as [e|]; simpl.
  - destruct (Qltb (clk n) e); simpl; [reflexivity|]. now rewrite Hc.
  - now rewrite Hc.
Qed.

End ChakraEquations.

(** ** Activation *)

Section Activation.
Import ChakraSystem.

Lemma can_use_jutsu_eligible a clk n s :
  exists b n',
    can_use_jutsu a clk n s = (Ok b, n', s)
    /\ (b = true <-> eligible a (clk n) s).
Proof.
  rewrite can_use_jutsu_eq. unfold eligible.
  destruct (jutsu_costs s !! a) as [c|] eqn:Hc.
  - destruct (Qltb (current_chakra s) c) eqn:Hlt.
    + exists false, n. split; [reflexivity|]. split; [discriminate|].
      intros (c' & Hc' & Hle & _). injection Hc' as <-.
      apply Qltb_true in Hlt. exfalso. exact (Qlt_not_le _ _ Hlt Hle).
    + apply Qltb_false in Hlt.
      destruct (cooldowns s !! a) as [e|] eqn:He.
      * exists (negb (Qltb (clk n) e)), (S n). split; [reflexivity|].
        rewrite negb_true_iff, Qltb_false. simpl. split.
        -- intros H. exists c. auto.
        -- intros (_ & _ & _ & H). exact H.
      * exists true, n. split; [reflexivity|]. split; [|reflexivity].
        intros _. exists c. simpl. repeat split; auto. apply Qle_refl.
  - exists false, n. split; [reflexivity|]. split; [discriminate|].
    intros (c & Hc' & _). discriminate.
Qed.

(** What one call of [use_jutsu] does, for any clock: [t] is the reading
    used by the cooldown test and [t'] the one used to set the cooldown. *)
Lemma use_jutsu_cases a clk n s :
  (eligible a (clk n) s
   /\ exists c n',
       jutsu_costs s !! a = Some c /\ (n' = n \/ n' = S n)
       /\ use_jutsu a clk n s =
            (Ok true, S n',
             set_cooldowns
               (<[a := (clk n' + default 2.0 (cooldown_durations s !! a))%Q]>
                  (cooldowns s))
               (set_current_chakra (current_chakra s - c)%Q s)))
  \/ (~ eligible a (clk n) s
      /\ exists n', use_jutsu a clk n s = (Ok false, n', s)).
Proof.
  rewrite use_jutsu_eq.
  destruct (can_use_jutsu_eligible a clk n s) as (b & n' & E & Hb).
  assert (Hn : n' = n \/ n' = S n).
  { rewrite can_use_jutsu_eq in E.
    destruct (jutsu_costs s !! a); [|left; congruence].
    destruct (Qltb _ _); [left; congruence|].
    destruct (cooldowns s !! a); [right|left]; congruence. }
  rewrite E. destruct b.
  - left. pose proof (proj1 Hb eq_refl) as He. split; [exact He|].
    destruct He as (c & Hc & _). exists c, n'. rewrite Hc. auto.
  - right. split; [|eauto]. intros He. apply Hb in He. discriminate.
Qed.

Lemma refused_not_eligible a t s : refused a t s <-> ~ eligible a t s.
Proof.
  unfold refused, eligible. split.
  - intros [Hn | [(c & Hc & Hlt) | (e & He & Hlt)]] (c' & Hc' & Hle & Hcd).
    + congruence.
    + assert (c' = c) as -> by congruence.
      exact (Qlt_not_le _ _ Hlt Hle).
    + rewrite He in Hcd. simpl in Hcd. exact (Qlt_not_le _ _ Hlt Hcd).
  - intros Hne. destruct (jutsu_costs s !! a) as [c|] eqn:Hc; [|now left].
    right. destruct (Qlt_le_dec (current_chakra s) c) as [Hlt|Hle].
    + left. eauto.
    + right. destruct (cooldowns s !! a) as [e|] eqn:He.
      * exists e. split; [reflexivity|]. apply Qnot_le_lt. intros Hcd.
        apply Hne. exists c. auto.
      * exfalso. apply Hne. exists c. simpl.
        repeat split; auto. apply Qle_refl.
Qed.

(** C1. For every action [a] and time [t], [use_jutsu a] called at time
    [t] returns [True] or [False]; it returns [True] if and only if [a] has
    a registered cost [c], [c <= current_chakra], and
    [cooldowns.get(a, t) <= t].  When it returns [True], [current_chakra]
    has decreased by exactly [c] and [cooldowns[a]] is exactly
    [t + cooldown_durations.get(a, 2.0)], that is [t + cooldown_durations[a]]
    whenever [a] has a registered duration. *)
Theorem use_jutsu_true_iff_eligible (a : string) (t : Q) (s : ChakraSystem.t) :
  let '(r, s') := call (use_jutsu a) (at_time t) s in
  (r = Ok true \/ r = Ok false)
  /\ (r = Ok true <->
        exists c, jutsu_costs s !! a = Some c
                  /\ (c <= current_chakra s)%Q
                  /\ (default t (cooldowns s !! a) <= t)%Q)
  /\ (r = Ok true ->
        exists c, jutsu_costs s !! a = Some c
                  /\ current_chakra s' = (current_chakra s - c)%Q
                  /\ cooldowns s' !! a
                       = Some (t + default 2.0 (cooldown_durations s !! a))%Q
                  /\ forall d, cooldown_durations s !! a = Some d ->
                                cooldowns s' !! a = Some (t + d)%Q).
Proof.
  unfold call.
  destruct (use_jutsu_cases a (at_time t) 0 s)
    as [(He & c & n' & Hc & _ & E) | (Hne & n' & E)]; rewrite E.
  - split; [now left|]. split; [split; [intros _; exact He|reflexivity]|].
    intros _. exists c. simpl. unfold at_time.
    split; [exact Hc|]. split; [reflexivity|].
    split; [apply lookup_insert_eq|].
    intros d Hd. rewrite Hd. apply lookup_insert_eq.
  - split; [now right|]. split; [|discriminate].
    split; [discriminate|]. intros He. contradiction.
Qed.

Lemma use_jutsu_true_iff_eligible_witness :
  let '(r, s') := call (use_jutsu "Fist") (at_time 0) (init 100 0.5) in
  r = Ok true
  /\ (current_chakra s' == 70)%Q
  /\ cooldowns s' !! "Fist" = Some (0 + 2.0)%Q.
Proof.
  pose proof (use_jutsu_true_iff_eligible "Fist" 0 (init 100 0.5)) as H.
  destruct (call (use_jutsu "Fist") (at_time 0) (init 100 0.5)) as [r s'].
  destruct H as (_ & Hiff & Hpost).
  assert (Hr : r = Ok true).
  { apply Hiff. exists 30%Q. split; [vm_compute; reflexivity|].
    split; [discriminate|]. vm_compute. discriminate. }
  split; [exact Hr|].
  destruct (Hpost Hr) as (c & Hc & Hlevel & _ & Hcd).
  vm_compute in Hc. injection Hc as <-.
  split; [rewrite Hlevel; reflexivity|].
  apply Hcd. vm_compute. reflexivity.
Defined.

(** The activation scenario of the specification: "Fist" at 0 succeeds,
    at 1 is refused by the cooldown, at 2.1 succeeds again. *)
Lemma fist_scenario :
  let s1 := call (use_jutsu "Fist") (at_time 0) (init 100 0.5) in
  let s2 := call (use_jutsu "Fist") (at_time 1) (snd s1) in
  let s3 := call (use_jutsu "Fist") (at_time 2.1) (snd s2) in
  (fst s1, current_chakra (snd s1), cooldowns (snd s1) !! "Fist")
  = (Ok true, 70%Q, Some 2.0%Q)
  /\ (fst s2, current_chakra (snd s2)) = (Ok false, 70%Q)
  /\ (fst s3, current_chakra (snd s3)) = (Ok true, 40%Q).
Proof. vm_compute. repeat split; reflexivity. Qed.

(** C2. For every action id [a], registered or not, and time [t]: when
    the activation is refused (unknown id, insufficient level or active
    cooldown), [use_jutsu a] called at [t] returns [False] without raising
    and leaves the whole object (level, cooldown ends, costs, cooldown
    durations) unchanged. *)
Theorem use_jutsu_refused_noop (a : string) (t : Q) (s : ChakraSystem.t) :
  refused a t s ->
  call (use_jutsu a) (at_time t) s = (Ok false, s).
Proof.
  intros Hr. apply refused_not_eligible in Hr. unfold call.
  destruct (use_jutsu_cases a (at_time t) 0 s)
    as [(He & _) | (_ & n' & E)]; [contradiction|].
  now rewrite E.
Qed.

Lemma use_jutsu_refused_noop_witness :
  call (use_jutsu "Dance") (at_time 0) (init 100 0.5)
  = (Ok false, init 100 0.5).
Proof.
  apply (use_jutsu_refused_noop "Dance" 0 (init 100 0.5)).
  left. vm_compute. reflexivity.
Defined.

End Activation.

(** ** The level stays within its bounds *)

Section LevelBounds.
Import ChakraSystem.

Lemma regenerate_cases s :
  ((current_chakra s < max_chakra s)%Q
   /\ regenerate s =
        set_current_chakra
          (Qmin (max_chakra s) (current_chakra s + regen_rate s)) s)
  \/ ((max_chakra s <= current_chakra s)%Q /\ regenerate s = s).
Proof.
  unfold regenerate.
  destruct (Qltb (current_chakra s) (max_chakra s)) eqn:E.
  - left. apply Qltb_true in E. auto.
  - right. apply Qltb_false in E. auto.
Qed.

Lemma use_jutsu_inv a clk s :
  chakra_inv s -> chakra_inv (snd (call (use_jutsu a) clk s)).
Proof.
  intros ((Hlo & Hhi) & Hr & Hc). unfold call.
  destruct (use_jutsu_cases a clk 0 s)
    as [((c' & Hc' & Hle & _) & c & n' & Hcost & _ & E) | (_ & n' & E)];
    rewrite E; simpl; [|repeat split; assumption].
  assert (c' = c) as -> by congruence.
  pose proof (Hc a c Hcost) as Hpos.
  repeat split; simpl; try assumption; lra.
Qed.

Lemma regenerate_inv s : chakra_inv s -> chakra_inv (regenerate s).
Proof.
  intros ((Hlo & Hhi) & Hr & Hc).
  destruct (regenerate_cases s) as [(Hlt & ->) | (_ & ->)];
    [|repeat split; assumption].
  repeat split; simpl; try assumption.
  - apply Q.min_glb; lra.
  - apply Q.le_min_l.
Qed.

Lemma reset_inv s : chakra_inv s -> chakra_inv (reset s).
Proof.
  intros ((Hlo & Hhi) & Hr & Hc).
  repeat split; simpl; try assumption; lra.
Qed.

Lemma apply_op_inv o s : chakra_inv s -> chakra_inv (apply_op o s).
Proof.
  destruct o; simpl;
    auto using use_jutsu_inv, regenerate_inv, reset_inv.
Qed.

Lemma apply_ops_inv ops : forall s, chakra_inv s -> chakra_inv (apply_ops ops s).
Proof.
  induction ops as [|o ops IH]; intros s Hs; simpl; [assumption|].
  apply IH, apply_op_inv, Hs.
Qed.

(** C3. From a constructed state ([current_chakra] equal to [max_chakra],
    [max_chakra > 0], [regen_rate >= 0], every registered cost
    non-negative), every sequence of the operations [use_jutsu] (with any
    clock), [regenerate] and [reset] leads to a state with
    [0 <= current_chakra <= max_chakra]. *)
Theorem level_stays_in_range (s : ChakraSystem.t) (ops : list chakra_op) :
  (current_chakra s == max_chakra s)%Q ->
  (0 < max_chakra s)%Q ->
  (0 <= regen_rate s)%Q ->
  costs_nonneg s ->
  level_in_range (apply_ops ops s).
Proof.
  intros Heq Hmax Hr Hc.
  apply (apply_ops_inv ops s).
  repeat split; try assumption; lra.
Qed.

Lemma init_costs_nonneg m r : costs_nonneg (init m r).
Proof.
  intros a c H. unfold init in H. simpl in H.
  repeat (apply lookup_insert_Some in H; destruct H as [[_ <-]|[_ H]];
          [lra|]).
  rewrite lookup_empty in H. discriminate.
Qed.

Lemma level_stays_in_range_witness :
  level_in_range
    (apply_ops [OpUseJutsu "Fist" (at_time 0); OpRegenerate;
                OpUseJutsu "Peace Sign" (at_time 1); OpReset;
                OpUseJutsu "Fist" (at_time 3)]
               (init 100 0.5)).
Proof.
  apply (level_stays_in_range (init 100 0.5)).
  - reflexivity.
  - reflexivity.
  - discriminate.
  - apply init_costs_nonneg.
Defined.

(** C4. In every state with [current_chakra <= max_chakra], [regenerate]
    leaves [current_chakra <= max_chakra]; at [current_chakra == max_chakra]
    it changes nothing, however often it is called; and, the regeneration
    rate being non-negative as the data model requires, the new level is
    [min(max_chakra, current_chakra + regen_rate)] and is not below the
    old one. *)
Theorem regenerate_min (s : ChakraSystem.t) :
  (current_chakra s <= max_chakra s)%Q ->
  (current_chakra (regenerate s) <= max_chakra s)%Q
  /\ ((current_chakra s == max_chakra s)%Q ->
      forall k, Nat.iter k regenerate s = s)
  /\ ((0 <= regen_rate s)%Q ->
      (current_chakra (regenerate s)
       == Qmin (max_chakra s) (current_chakra s + regen_rate s))%Q
      /\ (current_chakra s <= current_chakra (regenerate s))%Q).
Proof.
  intros Hle.
  destruct (regenerate_cases s) as [(Hlt & E) | (Hge & E)].
  - rewrite E. simpl. split; [apply Q.le_min_l|]. split.
    + intros Heq. lra.
    + intros Hr. split; [reflexivity|]. apply Q.min_glb; lra.
  - split; [now rewrite E|]. split.
    + intros _ k. induction k as [|k IH]; simpl; [reflexivity|].
      now rewrite IH.
    + intros Hr. rewrite E. split; [|apply Qle_refl].
      transitivity (max_chakra s); [lra|].
      symmetry. apply Q.min_l. lra.
Qed.

Lemma regenerate_min_witness :
  let s := set_current_chakra 99.8 (init 100 0.5) in
  (current_chakra s <= max_chakra s)%Q
  /\ (current_chakra (regenerate s) <= max_chakra s)%Q
  /\ ((current_chakra s == max_chakra s)%Q ->
      forall k, Nat.iter k regenerate s = s)
  /\ ((0 <= regen_rate s)%Q ->
      (current_chakra (regenerate s)
       == Qmin (max_chakra s) (current_chakra s + regen_rate s))%Q
      /\ (current_chakra s <= current_chakra (regenerate s))%Q).
Proof.
  intros s.
  split; [discriminate | apply (regenerate_min s); discriminate].
Defined.

End LevelBounds.

(** ** The equations of the gesture hold *)

Section HoldEquations.
Import JutsuRecognitionApp.

Lemma activate_jutsu_total g clk n e :
  exists r n' e', JutsuEngine.activate_jutsu g clk n e = (Ok r, n', e').
Proof.
  unfold JutsuEngine.activate_jutsu, mbind, M_bind, bind, get, getitem,
    contains.
  destruct (JutsuEngine.jutsu_map e !! g); simpl; eauto.
Qed.

Lemma use_jutsu_total a clk n s :
  exists b n' s', ChakraSystem.use_jutsu a clk n s = (Ok b, n', s').
Proof.
  destruct (use_jutsu_cases a clk n s)
    as [(_ & c & n' & _ & _ & E) | (_ & n' & E)]; rewrite E; eauto.
Qed.

(** Lines 175-182: the activation attempt made once the hold is long
    enough.  It returns normally and touches neither the held label nor
    the timer. *)
Lemma activation_attempt g clk n s :
  exists n' s',
    (ok ← on_chakra (ChakraSystem.can_use_jutsu g);
     if (ok : bool) then
       used ← on_chakra (ChakraSystem.use_jutsu g);
       if (used : bool) then
         jutsu_name ← on_engine (JutsuEngine.activate_jutsu g);
         if truthy_str jutsu_name
         then modify (set_last_jutsu jutsu_name)
         else ret tt
       else ret tt
     else ret tt) clk n s = (Ok tt, n', s')
    /\ last_gesture s' = last_gesture s
    /\ gesture_start_time s' = gesture_start_time s
    /\ gesture_hold_duration s' = gesture_hold_duration s
    /\ paused s' = paused s.
Proof.
  unfold mbind, M_bind, bind, on_chakra, on_engine, zoom.
  destruct (can_use_jutsu_eligible g clk n (chakra_system s))
    as (b & n1 & E1 & _).
  rewrite E1. destruct b; [|simpl; eauto 10].
  destruct (use_jutsu_total g clk n1
              (chakra_system (set_chakra_system (chakra_system s) s)))
    as (u & n2 & c2 & E2).
  rewrite E2. destruct u; [|simpl; eauto 10].
  match goal with
  | |- context [JutsuEngine.activate_jutsu g clk n2 ?e] =>
      destruct (activate_jutsu_total g clk n2 e) as (r & n3 & e3 & E3)
  end.
  rewrite E3. destruct (truthy_str r); simpl; eauto 10.
Qed.

Variables (clk : Clock) (n : nat) (s : JutsuRecognitionApp.t).

Lemma process_gesture_absent :
  process_gesture None clk n s
  = (Ok tt, n, set_gesture_start_time None (set_last_gesture None s)).
Proof. reflexivity. Qed.

Lemma process_gesture_unknown :
  process_gesture (Some "Unknown") clk n s
  = (Ok tt, n, set_gesture_start_time None (set_last_gesture None s)).
Proof. reflexivity. Qed.

Variable g : string.
Hypothesis g_known : g <> "Unknown".

Lemma process_gesture_new :
  last_gesture s <> Some g ->
  process_gesture (Some g) clk n s
  = (Ok tt, S n,
     set_gesture_start_time (Some (clk n)) (set_last_gesture (Some g) s)).
Proof.
  intros Hl. unfold process_gesture.
  apply String.eqb_neq in g_known. rewrite g_known.
  unfold mbind, M_bind, bind, get.
  rewrite bool_decide_eq_false_2 by congruence. reflexivity.
Qed.

Lemma process_gesture_stalled :
  last_gesture s = Some g ->
  truthy_num (gesture_start_time s) = false ->
  process_gesture (Some g) clk n s = (Ok tt, n, s).
Proof.
  intros Hl Ht. unfold process_gesture.
  apply String.eqb_neq in g_known. rewrite g_known.
  unfold mbind, M_bind, bind, get.
  rewrite bool_decide_eq_true_2 by congruence. simpl. now rewrite Ht.
Qed.

Variable t0 : Q.
Hypothesis held : last_gesture s = Some g.
Hypothesis started : gesture_start_time s = Some t0.
Hypothesis t0_truthy : ~ (t0 == 0)%Q.

Lemma started_truthy : truthy_num (gesture_start_time s) = true.
Proof.
  rewrite started. simpl. apply negb_true_iff.
  destruct (Qeq_bool t0 0) eqn:E; [|reflexivity].
  apply Qeq_bool_iff in E. contradiction.
Qed.

Lemma process_gesture_waiting :
  (clk n - t0 < gesture_hold_duration s)%Q ->
  process_gesture (Some g) clk n s = (Ok tt, S n, s).
Proof.
  intros Hlt. unfold process_gesture.
  apply String.eqb_neq in g_known. rewrite g_known.
  unfold mbind, M_bind, bind, get.
  rewrite bool_decide_eq_true_2 by congruence. simpl.
  rewrite started_truthy. unfold time_time. rewrite started. simpl.
  destruct (Qle_bool (gesture_hold_duration s) (clk n - t0)) eqn:E;
    [|reflexivity].
  apply Qle_bool_iff in E. exfalso. exact (Qlt_not_le _ _ Hlt E).
Qed.

Lemma process_gesture_fires :
  (gesture_hold_duration s <= clk n - t0)%Q ->
  exists n' s',
    process_gesture (Some g) clk n s = (Ok tt, n', s')
    /\ last_gesture s' = Some g
    /\ gesture_start_time s' = None
    /\ gesture_hold_duration s' = gesture_hold_duration s
    /\ paused s' = paused s.
Proof.
  intros Hle. unfold process_gesture.
  apply String.eqb_neq in g_known. rewrite g_known.
  rewrite run_bind, run_get.
  rewrite bool_decide_eq_true_2 by congruence.
  change (negb true) with false. cbv iota.
  rewrite started_truthy.
  rewrite run_bind, run_time_time, started.
  unfold as_float. rewrite run_bind, run_ret.
  apply Qle_bool_iff in Hle. rewrite Hle.
  rewrite run_bind.
  destruct (activation_attempt g clk (S n) s)
    as (n' & s' & E & Hl & Hs & Hd & Hp).
  rewrite E. exists n', (set_gesture_start_time None s').
  split; [reflexivity|]. simpl. rewrite Hl. auto.
Qed.

End HoldEquations.

(** ** One [update] call, case by case *)

Section UpdateCases.
Import JutsuRecognitionApp.

Lemma update_eq g clk n s :
  update g clk n s =
    match process_gesture g clk n s with
    | (Ok _, n', s') => (Ok (confirmation s s'), n', s')
    | (Raise e, n', s') => (Raise e, n', s')
    end.
Proof.
  unfold update. rewrite run_bind, run_get, run_bind.
  destruct (process_gesture g clk n s) as [[[[]|e] n'] s']; reflexivity.
Qed.

Lemma confirmation_reset s :
  confirmation s (set_gesture_start_time None (set_last_gesture None s))
  = None.
Proof.
  unfold confirmation. simpl.
  destruct (_ && _ && _); reflexivity.
Qed.

Lemma confirmation_started s l t :
  confirmation s (set_gesture_start_time (Some t) (set_last_gesture l s))
  = None.
Proof.
  unfold confirmation. simpl. now rewrite andb_false_r.
Qed.

Lemma confirmation_same s : confirmation s s = None.
Proof.
  unfold confirmation.
  destruct (gesture_start_time s) as [t|] eqn:E; [|reflexivity].
  rewrite (bool_decide_eq_false_2 (Some t = None)) by discriminate.
  now rewrite andb_false_r.
Qed.

Lemma confirmation_cleared s s' g :
  truthy_num (gesture_start_time s) = true ->
  last_gesture s = Some g ->
  last_gesture s' = Some g ->
  gesture_start_time s' = None ->
  confirmation s s' = Some g.
Proof.
  intros Ht Hl Hl' Hs'. unfold confirmation.
  rewrite Ht, Hs', Hl, Hl'.
  rewrite !bool_decide_eq_true_2 by reflexivity. reflexivity.
Qed.

Lemma update_cases g clk s :
  exists r s', call (update g) clk s = (Ok r, s') /\ update_case g clk s r s'.
Proof.
  unfold call. rewrite update_eq.
  destruct g as [g0|].
  2:{ rewrite process_gesture_absent, confirmation_reset.
      eexists _, _. split; [reflexivity|]. constructor. now left. }
  destruct (String.eqb_spec g0 "Unknown") as [->|Hk].
  { rewrite process_gesture_unknown, confirmation_reset.
    eexists _, _. split; [reflexivity|]. constructor. now right. }
  destruct (decide (last_gesture s = Some g0)) as [Hl|Hl].
  2:{ rewrite process_gesture_new, confirmation_started by assumption.
      eexists _, _. split; [reflexivity|]. now apply (case_new _ _ _ g0). }
  destruct (truthy_num (gesture_start_time s)) eqn:Ht.
  2:{ rewrite process_gesture_stalled, confirmation_same by assumption.
      eexists _, _. split; [reflexivity|]. now apply (case_stalled _ _ _ g0). }
  destruct (gesture_start_time s) as [t0|] eqn:Hs; [|discriminate].
  assert (Hnz : ~ (t0 == 0)%Q).
  { intros H. apply Qeq_bool_iff in H. simpl in Ht. now rewrite H in Ht. }
  destruct (Qlt_le_dec (clk 0%nat - t0) (gesture_hold_duration s))
    as [Hlt|Hle].
  - rewrite (process_gesture_waiting clk 0 s g0 Hk t0) by assumption.
    rewrite confirmation_same.
    eexists _, _. split; [reflexivity|].
    now apply (case_waiting _ _ _ g0 t0).
  - destruct (process_gesture_fires clk 0 s g0 Hk t0 Hl Hs Hnz Hle)
      as (n' & s' & E & Hl' & Hs' & Hd & Hp).
    rewrite E. exists (Some g0), s'. split.
    + f_equal. f_equal. apply (confirmation_cleared s s' g0); auto.
      now rewrite Hs.
    + now apply (case_fired _ _ _ g0 t0).
Qed.

End UpdateCases.

(** ** Runs of [update] calls *)

Section Runs.
Import JutsuRecognitionApp.

Lemma updates_cons g clk rest s :
  updates ((g, clk) :: rest) s =
    match call (update g) clk s with
    | (Ok r, s') => let '(rs, s'') := updates rest s' in (r :: rs, s'')
    | (Raise _, s') => ([], s')
    end.
Proof. reflexivity. Qed.

Lemma same_label_cons g clk clks :
  same_label g (clk :: clks) = (g, clk) :: same_label g clks.
Proof. reflexivity. Qed.

Lemma truthy_num_false_Some t0 :
  truthy_num (Some t0) = false -> (t0 == 0)%Q.
Proof.
  simpl. rewrite negb_false_iff. apply Qeq_bool_iff.
Qed.

(** Held label with no running timer: the same label is ignored. *)
Lemma update_stalled g0 clk s :
  g0 <> "Unknown" -> last_gesture s = Some g0 ->
  truthy_num (gesture_start_time s) = false ->
  call (update (Some g0)) clk s = (Ok None, s).
Proof.
  intros Hk Hl Ht. unfold call. rewrite update_eq.
  rewrite process_gesture_stalled by assumption.
  now rewrite confirmation_same.
Qed.

Lemma stalled_run g0 clks :
  forall s,
    g0 <> "Unknown" -> last_gesture s = Some g0 ->
    truthy_num (gesture_start_time s) = false ->
    updates (same_label (Some g0) clks) s = (silent clks, s).
Proof.
  induction clks as [|clk clks IH]; intros s Hk Hl Ht; [reflexivity|].
  rewrite same_label_cons, updates_cons, update_stalled by assumption.
  now rewrite IH.
Qed.


Lemma length_silent {X} (l : list X) : length (silent l) = length l.
Proof. apply length_map. Qed.




End Runs.

(** ** The hold timer *)

Section HoldTimer.
Import JutsuRecognitionApp.

(** With a hold that started at a non-zero reading [t0], the call made
    at time [now] with the held label confirms exactly when
    [now - t0 >= gesture_hold_duration]. *)
Lemma hold_confirms_at_threshold g t0 now s :
  g <> "Unknown" -> last_gesture s = Some g ->
  gesture_start_time s = Some t0 -> ~ (t0 == 0)%Q ->
  fst (call (update (Some g)) (at_time now) s) = Ok (Some g)
  <-> (gesture_hold_duration s <= now - t0)%Q.
Proof.
  intros Hk Hl Hs Hnz.
  destruct (update_cases (Some g) (at_time now) s) as (r & s' & E & C).
  rewrite E. simpl.
  destruct C as [Hr | g1 Hg Hk1 Hl1 | g1 Hg Hk1 Hl1 Ht
                | g1 t1 Hg Hk1 Hl1 Hs1 Hnz1 Hlt
                | g1 t1 s' Hg Hk1 Hl1 Hs1 Hnz1 Hle Hl' Hs' Hd Hp].
  - destruct Hr; congruence.
  - congruence.
  - rewrite Hs in Ht. apply truthy_num_false_Some in Ht. contradiction.
  - assert (t1 = t0) as -> by congruence. unfold at_time in Hlt.
    split; [discriminate|]. intros Hle. exfalso.
    exact (Qlt_not_le _ _ Hlt Hle).
  - assert (t1 = t0) as -> by congruence. unfold at_time in Hle.
    split; [intros _; exact Hle|]. intros _. congruence.
Qed.

(** The scenario of the specification, moved away from time zero. *)
Lemma hold_scenario_from_one :
  fst (updates [(Some "Fist", at_time 1.0); (Some "Fist", at_time 1.3);
                (Some "Fist", at_time 1.5); (Some "Fist", at_time 1.5)]
               init)
  = [None; None; Some "Fist"; None].
Proof. vm_compute. reflexivity. Qed.

(** The label-switch scenario of the specification: "Fist" at 0.0, then
    "Open Palm" at 0.1 and 0.4 without confirmation, confirmed at 0.6. *)
Lemma switch_scenario :
  fst (updates [(Some "Fist", at_time 0.0); (Some "Open Palm", at_time 0.1);
                (Some "Open Palm", at_time 0.4);
                (Some "Open Palm", at_time 0.6)]
               init)
  = [None; None; None; Some "Open Palm"].
Proof. vm_compute. reflexivity. Qed.

(** A clock that reads 0.0 exactly when the hold starts, which
    [time.time()] does not return on a running system: the test
    [if self.gesture_start_time:] takes the start time 0.0 for an unset
    timer, and no call confirms. *)
Lemma hold_scenario_from_zero :
  fst (updates [(Some "Fist", at_time 0.0); (Some "Fist", at_time 0.3);
                (Some "Fist", at_time 0.5); (Some "Fist", at_time 0.5)]
               init)
  = [None; None; None; None].
Proof. vm_compute. reflexivity. Qed.

(** C7. A call, at time [t], whose label [g] is not "Unknown" and differs
    from the held label (or finds no label held) reports no confirmation,
    whatever the state of the previous hold; afterwards [last_gesture] is
    [g], [gesture_start_time] is [t] and every other field is as before; a
    later call with [g] made less than [gesture_hold_duration] after [t]
    does not confirm. *)
Theorem new_label_restarts_hold (g : string) (t : Q) (s : JutsuRecognitionApp.t) :
  g <> "Unknown" ->
  last_gesture s <> Some g ->
  let '(r, s') := call (update (Some g)) (at_time t) s in
  r = Ok None
  /\ last_gesture s' = Some g
  /\ gesture_start_time s' = Some t
  /\ chakra_system s' = chakra_system s
  /\ jutsu_engine s' = jutsu_engine s
  /\ last_jutsu s' = last_jutsu s
  /\ gesture_hold_duration s' = gesture_hold_duration s
  /\ paused s' = paused s
  /\ forall t',
      (t' - t < gesture_hold_duration s)%Q ->
      fst (call (update (Some g)) (at_time t') s') = Ok None.
Proof.
  intros Hk Hl. unfold call at 1.
  rewrite update_eq, process_gesture_new, confirmation_started by assumption.
  repeat (split; [reflexivity|]).
  intros t' Hlt.
  destruct (update_cases (Some g) (at_time t')
              (set_gesture_start_time (Some (at_time t 0%nat))
                 (set_last_gesture (Some g) s)))
    as (r & s' & E & C).
  rewrite E. simpl.
  destruct C as [Hr | g1 Hg Hk1 Hl1 | g1 Hg Hk1 Hl1 Ht
                | g1 t1 Hg Hk1 Hl1 Hs1 Hnz1 Hlt1
                | g1 t1 s' Hg Hk1 Hl1 Hs1 Hnz1 Hle Hl' Hs' Hd Hp];
    try reflexivity.
  simpl in Hs1, Hle. unfold at_time in Hs1, Hle.
  assert (t1 = t) as -> by congruence.
  exfalso. exact (Qlt_not_le _ _ Hlt Hle).
Qed.

Lemma new_label_restarts_hold_witness :
  let s := snd (call (update (Some "Fist")) (at_time 0.0) init) in
  let '(r, s') := call (update (Some "Open Palm")) (at_time 0.1) s in
  r = Ok None
  /\ last_gesture s' = Some "Open Palm"
  /\ gesture_start_time s' = Some 0.1%Q
  /\ chakra_system s' = chakra_system s
  /\ jutsu_engine s' = jutsu_engine s
  /\ last_jutsu s' = last_jutsu s
  /\ gesture_hold_duration s' = gesture_hold_duration s
  /\ paused s' = paused s
  /\ forall t',
      (t' - 0.1 < gesture_hold_duration s)%Q ->
      fst (call (update (Some "Open Palm")) (at_time t') s') = Ok None.
Proof.
  intros s.
  apply (new_label_restarts_hold "Open Palm" 0.1 s).
  - discriminate.
  - vm_compute. discriminate.
Defined.

End HoldTimer.

(** ** One confirmation per hold *)

Section OncePerHold.
Import JutsuRecognitionApp.


Lemma after_confirmation g0 r clk s s1 :
  call (update (Some g0)) clk s = (Ok (Some r), s1) ->
  g0 <> "Unknown" /\ last_gesture s1 = Some g0
  /\ gesture_start_time s1 = None.
Proof.
  intros E.
  destruct (update_cases (Some g0) clk s) as (r' & s' & E' & C).
  rewrite E in E'. injection E' as <- <-.
  inversion C; subst. simplify_eq. auto.
Qed.


Lemma updates_app l1 : forall l2 s rs s1,
  updates l1 s = (rs, s1) -> length rs = length l1 ->
  updates (l1 ++ l2) s = (rs ++ fst (updates l2 s1), snd (updates l2 s1)).
Proof.
  induction l1 as [|[g clk] l1 IH]; intros l2 s rs s1 E Hlen.
  - simpl in E. injection E as <- <-. simpl. now destruct (updates l2 s).
  - simpl app. rewrite updates_cons in *.
    destruct (call (update g) clk s) as [[r|e] s'].
    + destruct (updates l1 s') as [rs' s''] eqn:E'.
      injection E as <- <-. simpl in Hlen.
      rewrite (IH l2 s' rs' s'' E') by lia. reflexivity.
    + injection E as <- <-. discriminate.
Qed.



(** C10. After a call of [process_gesture] that reached the hold
    threshold (held label [g], timer started at a non-zero [t0],
    [now - t0 >= gesture_hold_duration]), [last_gesture] is still [g] and
    [gesture_start_time] is [None], in whatever state the chakra system was
    and so whether or not the activation went through.  From there, every
    further call with [g] reports no confirmation and changes nothing. *)
Theorem threshold_clears_timer_keeps_label
    (g : string) (t0 : Q) (clk : Clock) (s : JutsuRecognitionApp.t) :
  g <> "Unknown" ->
  last_gesture s = Some g ->
  gesture_start_time s = Some t0 ->
  ~ (t0 == 0)%Q ->
  (gesture_hold_duration s <= clk 0%nat - t0)%Q ->
  let s' := snd (call (process_gesture (Some g)) clk s) in
  fst (call (process_gesture (Some g)) clk s) = Ok tt
  /\ last_gesture s' = Some g
  /\ gesture_start_time s' = None
  /\ forall clks, updates (same_label (Some g) clks) s' = (silent clks, s').
Proof.
  intros Hk Hl Hs Hnz Hle. unfold call.
  destruct (process_gesture_fires clk 0 s g Hk t0 Hl Hs Hnz Hle)
    as (n' & s1 & E & Hl' & Hs' & _).
  rewrite E. simpl. repeat split; try assumption.
  intros clks. apply stalled_run; try assumption. now rewrite Hs'.
Qed.

Lemma threshold_clears_timer_keeps_label_witness :
  let s := snd (call (update (Some "Fist")) (at_time 1.0) init) in
  let s' := snd (call (process_gesture (Some "Fist")) (at_time 1.5) s) in
  fst (call (process_gesture (Some "Fist")) (at_time 1.5) s) = Ok tt
  /\ last_gesture s' = Some "Fist"
  /\ gesture_start_time s' = None
  /\ forall clks,
      updates (same_label (Some "Fist") clks) s' = (silent clks, s').
Proof.
  intros s.
  apply (threshold_clears_timer_keeps_label "Fist" 1.0 (at_time 1.5) s).
  - discriminate.
  - vm_compute. reflexivity.
  - vm_compute. reflexivity.
  - discriminate.
  - vm_compute. discriminate.
Defined.

(** The same with a chakra system that cannot pay: the timer is cleared
    and the label kept although nothing was activated. *)
Lemma threshold_with_no_chakra :
  let s := set_chakra_system
             (ChakraSystem.set_current_chakra 0 (ChakraSystem.init 100 0.5))
             (snd (call (update (Some "Fist")) (at_time 1.0) init)) in
  let s' := snd (call (process_gesture (Some "Fist")) (at_time 1.5) s) in
  last_gesture s' = Some "Fist" /\ gesture_start_time s' = None
  /\ last_jutsu s' = None
  /\ ChakraSystem.current_chakra (chakra_system s') = 0%Q.
Proof. vm_compute. repeat split; reflexivity. Qed.

End OncePerHold.

(** ** Held label and timer *)

Section LabelAndTimer.
Import JutsuRecognitionApp.

(** C6, as the code has it.  A call of [update] (of [process_gesture])
    always returns, and after it [gesture_start_time] is set only if
    [last_gesture] is set.  After a call that reports a confirmation, the
    confirmed label is the observed one, [gesture_start_time] is [None] and
    [last_gesture] still holds the confirmed label. *)
Theorem timer_set_only_with_label
    (g : option string) (clk : Clock) (s : JutsuRecognitionApp.t) :
  let '(r, s') := call (update g) clk s in
  (exists o, r = Ok o)
  /\ (gesture_start_time s' <> None -> last_gesture s' <> None)
  /\ (forall l, r = Ok (Some l) ->
                g = Some l /\ last_gesture s' = Some l
                /\ gesture_start_time s' = None).
Proof.
  destruct (update_cases g clk s) as (r & s' & E & C). rewrite E.
  split; [eauto|].
  destruct C as [Hr | g1 Hg Hk1 Hl1 | g1 Hg Hk1 Hl1 Ht
                | g1 t1 Hg Hk1 Hl1 Hs1 Hnz1 Hlt1
                | g1 t1 s' Hg Hk1 Hl1 Hs1 Hnz1 Hle Hl' Hs' Hd Hp];
    (split; [|intros l Hl; injection Hl as Hl; try discriminate]).
  - simpl. congruence.
  - simpl. discriminate.
  - congruence.
  - congruence.
  - congruence.
  - subst l. auto.
Qed.

Lemma timer_set_only_with_label_witness :
  let '(r, s') :=
    call (update (Some "Fist")) (at_time 1.5)
      (snd (call (update (Some "Fist")) (at_time 1.0) init)) in
  r = Ok (Some "Fist")
  /\ last_gesture s' = Some "Fist" /\ gesture_start_time s' = None.
Proof.
  pose proof (timer_set_only_with_label (Some "Fist") (at_time 1.5)
                (snd (call (update (Some "Fist")) (at_time 1.0) init)))
    as H.
  assert (Hr : fst (call (update (Some "Fist")) (at_time 1.5)
                      (snd (call (update (Some "Fist")) (at_time 1.0) init)))
               = Ok (Some "Fist"))
    by (vm_compute; reflexivity).
  destruct (call (update (Some "Fist")) (at_time 1.5)
              (snd (call (update (Some "Fist")) (at_time 1.0) init)))
    as [r s'].
  simpl in Hr. destruct H as (_ & _ & H).
  split; [exact Hr|]. apply (H "Fist" Hr).
Defined.

(** C6, the claim refuted on the code: from the initial state, "Fist"
    observed at 1.0 and again at 1.5 confirms on the second call, and
    afterwards [last_gesture] is "Fist" while [gesture_start_time] is
    [None]; so "timer set iff label held" fails, and the two fields are not
    both [None] after the confirmation. *)
Lemma label_outlives_timer :
  let run := updates [(Some "Fist", at_time 1.0);
                      (Some "Fist", at_time 1.5)] init in
  fst run = [None; Some "Fist"]
  /\ ~ (gesture_start_time (snd run) <> None
        <-> last_gesture (snd run) <> None)
  /\ ~ (last_gesture (snd run) = None
        /\ gesture_start_time (snd run) = None).
Proof.
  assert (E : last_gesture
                (snd (updates [(Some "Fist", at_time 1.0);
                               (Some "Fist", at_time 1.5)] init))
              = Some "Fist"
              /\ gesture_start_time
                   (snd (updates [(Some "Fist", at_time 1.0);
                                  (Some "Fist", at_time 1.5)] init))
                 = None)
    by (vm_compute; split; reflexivity).
  destruct E as [El Es]. cbv zeta. rewrite El, Es.
  split; [vm_compute; reflexivity|]. split.
  - intros [_ H]. now apply H.
  - intros [H _]. discriminate.
Qed.

End LabelAndTimer.

(** ** The gated block of the main loop *)

Section MainLoop.
Import JutsuRecognitionApp.

Lemma run_tick_eq g clk n s :
  run_tick g clk n s =
    if paused s then (Ok tt, n, s)
    else ((if truthy_str g then process_gesture g else ret tt);;
          on_chakra (modify ChakraSystem.regenerate)) clk n s.
Proof.
  unfold run_tick. rewrite run_bind, run_get.
  destruct (paused s); reflexivity.
Qed.

(** The gate and the labels.  On a paused tick these statements do
    nothing.  On a tick that is not paused and whose classification result
    is a non-empty label, [process_gesture] runs once with that label,
    followed by [regenerate]; when that label is "Unknown", the hold is
    reset on that tick ([last_gesture] and [gesture_start_time] both
    [None]). *)
Lemma run_tick_processes_labels
    (g : option string) (clk : Clock) (s : JutsuRecognitionApp.t) :
  (paused s = true -> call (run_tick g) clk s = (Ok tt, s))
  /\ (paused s = false ->
      forall g0, g = Some g0 -> g0 <> "" ->
      call (run_tick g) clk s
      = call (process_gesture (Some g0);;
              on_chakra (modify ChakraSystem.regenerate)) clk s)
  /\ (paused s = false -> g = Some "Unknown" ->
      let s' := snd (call (run_tick g) clk s) in
      fst (call (run_tick g) clk s) = Ok tt
      /\ last_gesture s' = None
      /\ gesture_start_time s' = None
      /\ confirmation s s' = None).
Proof.
  unfold call. rewrite run_tick_eq. split; [|split].
  - intros ->. reflexivity.
  - intros -> g0 -> Hne. simpl truthy_str.
    apply String.eqb_neq in Hne. now rewrite Hne.
  - intros -> ->. simpl. repeat split.
    unfold confirmation. simpl. destruct (_ && _ && _); reflexivity.
Qed.

Lemma run_tick_processes_labels_witness :
  let s := snd (call (update (Some "Fist")) (at_time 1.0) init) in
  let s' := snd (call (run_tick (Some "Unknown")) (at_time 1.2) s) in
  fst (call (run_tick (Some "Unknown")) (at_time 1.2) s) = Ok tt
  /\ last_gesture s' = None
  /\ gesture_start_time s' = None
  /\ confirmation s s' = None.
Proof.
  intros s.
  apply (run_tick_processes_labels (Some "Unknown") (at_time 1.2) s).
  - vm_compute. reflexivity.
  - reflexivity.
Defined.

(** A tick that is not paused and on which no hand is detected: only
    [regenerate] runs. *)
Lemma run_tick_no_hand clk s :
  paused s = false ->
  call (run_tick None) clk s
  = (Ok tt,
     set_chakra_system (ChakraSystem.regenerate (chakra_system s)) s).
Proof.
  intros Hp. unfold call. rewrite run_tick_eq, Hp. reflexivity.
Qed.

(** C8. A frame on which no hand is detected does not reset the hold.
    "Fist" starts a hold at 1.0; on the frame at 1.2 [get_gesture] returns
    [None], [if gesture:] skips [process_gesture], whose own branch for
    [None] would have reset the hold, and [last_gesture] and
    [gesture_start_time] stay as they were; "Fist" at 1.6 then completes
    the hold begun before the empty frame: the timer is cleared, 30 chakra
    are spent (70.5 after the regeneration of that frame), the cooldown of
    "Fist" is started and the jutsu is activated.  The same frame with the
    label "Unknown" in place of [None] does reset the hold. *)
Theorem hold_survives_empty_frame :
  let s := snd (call (run_tick (Some "Fist")) (at_time 1.0) init) in
  let s' := snd (call (run_tick None) (at_time 1.2) s) in
  let s'' := snd (call (run_tick (Some "Fist")) (at_time 1.6) s') in
  let u := snd (call (run_tick (Some "Unknown")) (at_time 1.2) s) in
  paused s = false
  /\ last_gesture s = Some "Fist"
  /\ gesture_start_time s = Some 1.0%Q
  /\ last_gesture s' = Some "Fist"
  /\ gesture_start_time s' = Some 1.0%Q
  /\ ~ (last_gesture s' = None /\ gesture_start_time s' = None)
  /\ confirmation s' s'' = Some "Fist"
  /\ gesture_start_time s'' = None
  /\ last_jutsu s'' = Some "Fire Style: Fireball Jutsu"
  /\ (ChakraSystem.current_chakra (chakra_system s'') == 70.5)%Q
  /\ (exists e, ChakraSystem.cooldowns (chakra_system s'') !! "Fist" = Some e
                /\ (e == 3.6)%Q)
  /\ last_gesture u = None
  /\ gesture_start_time u = None.
Proof.
  vm_compute. repeat split; try reflexivity.
  - intros [H _]. discriminate.
  - eexists. split; reflexivity.
Qed.

End MainLoop.


(** * Further properties of the code *)

(** ** Cooldowns *)

Section Cooldowns.
Import ChakraSystem.

Lemma get_cooldown_remaining_eq a clk n s :
  get_cooldown_remaining a clk n s =
    match cooldowns s !! a with
    | None => (Ok 0.0%Q, n, s)
    | Some e => (Ok (Qmax 0.0 (e - clk n)), S n, s)
    end.
Proof.
  unfold get_cooldown_remaining. rewrite run_bind, run_get.
  unfold contains, getitem.
  destruct (cooldowns s !! a) as [e|]; reflexivity.
Qed.

Lemma get_cooldown_remaining_at (a : string) (t : Q) (s : ChakraSystem.t) :
  exists r,
    call (get_cooldown_remaining a) (at_time t) s = (Ok r, s)
    /\ (0 <= r)%Q
    /\ ((r == 0)%Q <-> (default t (cooldowns s !! a) <= t)%Q)
    /\ (forall e, cooldowns s !! a = Some e -> (t < e)%Q -> (r == e - t)%Q).
Proof.
  unfold call. rewrite get_cooldown_remaining_eq. unfold at_time.
  destruct (cooldowns s !! a) as [e|]; simpl.
  - exists (Qmax 0.0 (e - t)). split; [reflexivity|].
    destruct (Q.max_spec 0.0 (e - t)) as [[Hlt Hm] | [Hle Hm]].
    + split; [rewrite Hm; lra|]. split.
      * rewrite Hm. split; intros H; lra.
      * intros e' [= <-] _. exact Hm.
    + split; [rewrite Hm; lra|]. split.
      * rewrite Hm. split; intros H; lra.
      * intros e' [= <-] Hlt. lra.
  - exists 0.0%Q. split; [reflexivity|]. split; [lra|]. split.
    + split; intros _; [apply Qle_refl|reflexivity].
    + intros e' [=].
Qed.

(** X1. [get_cooldown_remaining a] called at time [t] never raises and
    leaves the object unchanged; its result is never negative, it is zero
    exactly when [cooldowns.get(a, t) <= t] (no entry, or an entry that has
    expired), and it is [cooldowns[a] - t] while the cooldown runs. *)
Theorem cooldown_remaining_spec (a : string) (t : Q) (s : ChakraSystem.t) :
  exists r,
    call (get_cooldown_remaining a) (at_time t) s = (Ok r, s)
    /\ (0 <= r)%Q
    /\ ((r == 0)%Q <-> (default t (cooldowns s !! a) <= t)%Q)
    /\ (forall e, cooldowns s !! a = Some e -> (t < e)%Q -> (r == e - t)%Q).
Proof. exact (get_cooldown_remaining_at a t s). Qed.

Lemma cooldown_remaining_spec_witness :
  exists r,
    call (get_cooldown_remaining "Fist") (at_time 0.5)
      (snd (call (use_jutsu "Fist") (at_time 0) (init 100 0.5)))
    = (Ok r, snd (call (use_jutsu "Fist") (at_time 0) (init 100 0.5)))
    /\ (r == 1.5)%Q.
Proof.
  destruct (cooldown_remaining_spec "Fist" 0.5
              (snd (call (use_jutsu "Fist") (at_time 0) (init 100 0.5))))
    as (r & E & _ & _ & Hr).
  exists r. split; [exact E|].
  rewrite (Hr (0 + 2.0)%Q); [reflexivity| |reflexivity].
  vm_compute. reflexivity.
Defined.

(** X2. For a registered jutsu the pool can pay for, [can_use_jutsu]
    answers [True] at time [t] exactly when [get_cooldown_remaining] is zero
    at [t]: the gate and the display agree on when a cooldown is over. *)
Theorem can_use_iff_no_cooldown_left
    (a : string) (t c : Q) (s : ChakraSystem.t) :
  jutsu_costs s !! a = Some c ->
  (c <= current_chakra s)%Q ->
  fst (call (can_use_jutsu a) (at_time t) s) = Ok true
  <-> exists r, fst (call (get_cooldown_remaining a) (at_time t) s) = Ok r
                /\ (r == 0)%Q.
Proof.
  intros Hc Hle.
  destruct (get_cooldown_remaining_at a t s) as (r & Er & _ & Hz & _).
  rewrite Er. simpl.
  destruct (can_use_jutsu_eligible a (at_time t) 0 s) as (b & n' & Eb & Hb).
  unfold call. rewrite Eb. simpl. unfold at_time in Hb. split.
  - intros [= ->]. exists r. split; [reflexivity|]. apply Hz.
    destruct (proj1 Hb eq_refl) as (c' & _ & _ & H). exact H.
  - intros (r' & [= <-] & Hr). f_equal. apply Hb.
    exists c. split; [exact Hc|]. split; [exact Hle|]. now apply Hz.
Qed.

Lemma can_use_iff_no_cooldown_left_witness :
  fst (call (can_use_jutsu "Fist") (at_time 1)
         (snd (call (use_jutsu "Fist") (at_time 0) (init 100 0.5))))
  = Ok true
  <-> exists r,
      fst (call (get_cooldown_remaining "Fist") (at_time 1)
             (snd (call (use_jutsu "Fist") (at_time 0) (init 100 0.5))))
      = Ok r /\ (r == 0)%Q.
Proof.
  apply (can_use_iff_no_cooldown_left "Fist" 1 30).
  - vm_compute. reflexivity.
  - vm_compute. discriminate.
Defined.

Lemma NNPP_eligible a t s : ~ ~ eligible a t s -> eligible a t s.
Proof.
  intros H. destruct (refused_not_eligible a t s) as [_ Hr].
  unfold eligible.
  destruct (jutsu_costs s !! a) as [c|] eqn:Hc.
  2:{ exfalso. apply H. intros (c & Hc' & _). congruence. }
  destruct (Qlt_le_dec (current_chakra s) c) as [Hlt|Hle].
  { exfalso. apply H. intros (c' & Hc' & Hle & _).
    assert (c' = c) as -> by congruence. exact (Qlt_not_le _ _ Hlt Hle). }
  destruct (Qlt_le_dec t (default t (cooldowns s !! a))) as [Hcd|Hcd].
  { exfalso. apply H. intros (c' & _ & _ & Hcd'). exact (Qlt_not_le _ _ Hcd Hcd'). }
  exists c. auto.
Qed.

Lemma use_jutsu_success a t s s1 :
  call (use_jutsu a) (at_time t) s = (Ok true, s1) ->
  exists c,
    jutsu_costs s !! a = Some c /\ eligible a t s
    /\ s1 = set_cooldowns
              (<[a := (t + default 2.0 (cooldown_durations s !! a))%Q]>
                 (cooldowns s))
              (set_current_chakra (current_chakra s - c)%Q s).
Proof.
  unfold call. intros E.
  destruct (use_jutsu_cases a (at_time t) 0 s)
    as [(He & c & n' & Hc & _ & E') | (_ & n' & E')]; rewrite E' in E.
  - injection E as <-. exists c. auto.
  - discriminate.
Qed.

Lemma use_jutsu_at a t s :
  (eligible a t s -> fst (call (use_jutsu a) (at_time t) s) = Ok true)
  /\ (~ eligible a t s -> call (use_jutsu a) (at_time t) s = (Ok false, s)).
Proof.
  unfold call.
  destruct (use_jutsu_cases a (at_time t) 0 s)
    as [(He & c & n' & Hc & _ & E') | (Hne & n' & E')]; rewrite E'.
  - split; [reflexivity|]. intros H. contradiction.
  - split; [|reflexivity]. intros H. contradiction.
Qed.

(** X3. After [use_jutsu a] succeeded at time [t], with [d] the cooldown
    duration of [a] ([cooldown_durations.get(a, 2.0)]): at every time
    [t' < t + d] a new attempt on [a] returns [False] and changes nothing,
    and [get_cooldown_remaining a] is [t + d - t']; at every time
    [t' >= t + d] the attempt succeeds as soon as the remaining chakra covers
    the cost. *)
Theorem cooldown_blocks_reuse (a : string) (t : Q) (s s1 : ChakraSystem.t) :
  call (use_jutsu a) (at_time t) s = (Ok true, s1) ->
  forall t',
    ((t' < t + default 2.0 (cooldown_durations s !! a))%Q ->
     call (use_jutsu a) (at_time t') s1 = (Ok false, s1)
     /\ exists r,
         call (get_cooldown_remaining a) (at_time t') s1 = (Ok r, s1)
         /\ (r == t + default 2.0 (cooldown_durations s !! a) - t')%Q)
    /\ ((t + default 2.0 (cooldown_durations s !! a) <= t')%Q ->
        (exists c, jutsu_costs s !! a = Some c /\ (c <= current_chakra s1)%Q) ->
        fst (call (use_jutsu a) (at_time t') s1) = Ok true).
Proof.
  intros E t'. apply use_jutsu_success in E.
  destruct E as (c & Hc & _ & ->).
  set (d := default 2.0%Q (cooldown_durations s !! a)).
  set (s1 := set_cooldowns _ _).
  assert (Hcd : cooldowns s1 !! a = Some (t + d)%Q)
    by apply lookup_insert_eq.
  split.
  - intros Hlt. split.
    + apply use_jutsu_at, refused_not_eligible.
      right. right. exists (t + d)%Q. auto.
    + destruct (get_cooldown_remaining_at a t' s1) as (r & Er & _ & _ & Hr).
      exists r. split; [exact Er|]. now apply Hr.
  - intros Hle (c' & Hc' & Hpay). apply use_jutsu_at.
    exists c'. split; [exact Hc'|]. split; [exact Hpay|].
    rewrite Hcd. exact Hle.
Qed.

Lemma cooldown_blocks_reuse_witness :
  call (use_jutsu "Fist") (at_time 1)
    (snd (call (use_jutsu "Fist") (at_time 0) (init 100 0.5)))
  = (Ok false, snd (call (use_jutsu "Fist") (at_time 0) (init 100 0.5)))
  /\ fst (call (use_jutsu "Fist") (at_time 2.5)
            (snd (call (use_jutsu "Fist") (at_time 0) (init 100 0.5))))
     = Ok true.
Proof.
  assert (E : call (use_jutsu "Fist") (at_time 0) (init 100 0.5)
              = (Ok true,
                 snd (call (use_jutsu "Fist") (at_time 0) (init 100 0.5))))
    by (vm_compute; reflexivity).
  split.
  - apply (cooldown_blocks_reuse "Fist" 0 (init 100 0.5) _ E 1).
    vm_compute. reflexivity.
  - apply (cooldown_blocks_reuse "Fist" 0 (init 100 0.5) _ E 2.5).
    + vm_compute. discriminate.
    + exists 30%Q. split; [vm_compute; reflexivity|]. vm_compute. discriminate.
Defined.

(** X4. A successful [use_jutsu a] leaves the cooldown of every other
    jutsu [b], the cost and duration tables, the capacity and the
    regeneration rate as they were; so afterwards [b] can be activated at
    [t'] exactly when it has a cost that the remaining chakra covers and its
    own cooldown, as it was before, is over. *)
Theorem other_jutsu_unaffected (a b : string) (t : Q) (s s1 : ChakraSystem.t) :
  a <> b ->
  call (use_jutsu a) (at_time t) s = (Ok true, s1) ->
  cooldowns s1 !! b = cooldowns s !! b
  /\ jutsu_costs s1 = jutsu_costs s
  /\ cooldown_durations s1 = cooldown_durations s
  /\ max_chakra s1 = max_chakra s
  /\ regen_rate s1 = regen_rate s
  /\ forall t',
      fst (call (use_jutsu b) (at_time t') s1) = Ok true
      <-> exists cb, jutsu_costs s !! b = Some cb
                     /\ (cb <= current_chakra s1)%Q
                     /\ (default t' (cooldowns s !! b) <= t')%Q.
Proof.
  intros Hab E. apply use_jutsu_success in E.
  destruct E as (c & Hc & _ & ->).
  assert (Hb : cooldowns
                 (set_cooldowns
                    (<[a := (t + default 2.0 (cooldown_durations s !! a))%Q]>
                       (cooldowns s))
                    (set_current_chakra (current_chakra s - c)%Q s)) !! b
               = cooldowns s !! b)
    by (simpl; now apply lookup_insert_ne).
  repeat (split; [first [exact Hb | reflexivity]|]).
  intros t'.
  match goal with |- context [call _ _ ?s1] => set (s1' := s1) in * end.
  change (jutsu_costs s) with (jutsu_costs s1').
  rewrite <- Hb. fold (eligible b t' s1').
  destruct (use_jutsu_at b t' s1') as [Hyes Hno]. split.
  - intros Ht. destruct (refused_not_eligible b t' s1') as [_ Hr].
    destruct (jutsu_costs s1' !! b) as [cb|] eqn:Hcb.
    + apply NNPP_eligible. intros Hne. rewrite (Hno Hne) in Ht. discriminate.
    + exfalso. assert (Hne : ~ eligible b t' s1').
      { intros (cb & Hcb' & _). congruence. }
      rewrite (Hno Hne) in Ht. discriminate.
  - exact Hyes.
Qed.

Lemma other_jutsu_unaffected_witness :
  let s := init 100 0.5 in
  let s1 := snd (call (use_jutsu "Fist") (at_time 0) s) in
  cooldowns s1 !! "Point" = cooldowns s !! "Point"
  /\ jutsu_costs s1 = jutsu_costs s
  /\ cooldown_durations s1 = cooldown_durations s
  /\ max_chakra s1 = max_chakra s
  /\ regen_rate s1 = regen_rate s
  /\ forall t',
      fst (call (use_jutsu "Point") (at_time t') s1) = Ok true
      <-> exists cb, jutsu_costs s !! "Point" = Some cb
                     /\ (cb <= current_chakra s1)%Q
                     /\ (default t' (cooldowns s !! "Point") <= t')%Q.
Proof.
  intros s s1.
  apply (other_jutsu_unaffected "Fist" "Point" 0 s s1).
  - discriminate.
  - vm_compute. reflexivity.
Defined.

(** X5. [reset] puts the level back to [max_chakra] and empties the
    cooldowns without touching the tables: afterwards
    [get_cooldown_remaining] is 0 for every jutsu at every time, a jutsu can
    be activated exactly when it has a cost of at most [max_chakra], and a
    second [reset] changes nothing. *)
Theorem reset_restores (s : ChakraSystem.t) :
  (current_chakra (reset s) == max_chakra s)%Q
  /\ jutsu_costs (reset s) = jutsu_costs s
  /\ cooldown_durations (reset s) = cooldown_durations s
  /\ (forall a t,
        call (get_cooldown_remaining a) (at_time t) (reset s)
        = (Ok 0.0%Q, reset s))
  /\ (forall a t,
        fst (call (use_jutsu a) (at_time t) (reset s)) = Ok true
        <-> exists c, jutsu_costs s !! a = Some c /\ (c <= max_chakra s)%Q)
  /\ reset (reset s) = reset s.
Proof.
  split; [reflexivity|]. split; [reflexivity|]. split; [reflexivity|].
  split; [|split; [|reflexivity]].
  - intros a t. unfold call. rewrite get_cooldown_remaining_eq. simpl.
    now rewrite lookup_empty.
  - intros a t. destruct (use_jutsu_at a t (reset s)) as [Hyes Hno]. split.
    + intros Ht.
      assert (He : eligible a t (reset s)).
      { apply NNPP_eligible. intros Hne. rewrite (Hno Hne) in Ht.
        discriminate. }
      destruct He as (c & Hc & Hle & _). exists c. auto.
    + intros (c & Hc & Hle). apply Hyes. exists c.
      split; [exact Hc|]. split; [exact Hle|].
      simpl. rewrite lookup_empty. apply Qle_refl.
Qed.

(** X24. How [use_jutsu] reads the clock.  A refusal reads it at most
    once and changes nothing.  A success for a jutsu with no entry in
    [cooldowns] reads it once, and that reading starts the cooldown.  A
    success for a jutsu with an entry reads it twice: the first reading is
    compared with the old cooldown end, the second one starts the new
    cooldown. *)
Theorem use_jutsu_clock_reads (a : string) (clk : Clock) (s : ChakraSystem.t) :
  (~ eligible a (clk 0%nat) s ->
   exists reads,
     use_jutsu a clk 0 s = (Ok false, reads, s) /\ (reads <= 1)%nat)
  /\ (eligible a (clk 0%nat) s ->
      exists c reads,
        jutsu_costs s !! a = Some c
        /\ reads = match cooldowns s !! a with
                   | Some _ => 1%nat
                   | None => 0%nat
                   end
        /\ use_jutsu a clk 0 s
           = (Ok true, S reads,
              set_cooldowns
                (<[a := (clk reads
                         + default 2.0 (cooldown_durations s !! a))%Q]>
                   (cooldowns s))
                (set_current_chakra (current_chakra s - c)%Q s))).
Proof.
  rewrite use_jutsu_eq, can_use_jutsu_eq. split.
  - intros Hne.
    destruct (jutsu_costs s !! a) as [c|] eqn:Hc; [|exists 0%nat; auto].
    destruct (Qltb (current_chakra s) c) eqn:Hlt; [exists 0%nat; auto|].
    apply Qltb_false in Hlt.
    destruct (cooldowns s !! a) as [e|] eqn:He.
    + destruct (Qltb (clk 0%nat) e) eqn:Hcd; [exists 1%nat; auto|].
      apply Qltb_false in Hcd. exfalso. apply Hne.
      exists c. rewrite He. auto.
    + exfalso. apply Hne. exists c. rewrite He. simpl.
      repeat split; auto. apply Qle_refl.
  - intros (c & Hc & Hle & Hcd). rewrite Hc.
    apply Qltb_false in Hle. rewrite Hle.
    destruct (cooldowns s !! a) as [e|] eqn:He.
    + simpl in Hcd. apply Qltb_false in Hcd. rewrite Hcd. simpl.
      exists c, 1%nat. auto.
    + exists c, 0%nat. auto.
Qed.

Lemma use_jutsu_clock_reads_witness :
  exists c reads,
    jutsu_costs (snd (call (use_jutsu "Fist") (at_time 0) (init 100 0.5)))
      !! "Fist" = Some c
    /\ reads
       = match cooldowns (snd (call (use_jutsu "Fist") (at_time 0)
                                 (init 100 0.5))) !! "Fist" with
         | Some _ => 1%nat
         | None => 0%nat
         end
    /\ use_jutsu "Fist" (fun n => inject_Z (Z.of_nat n) + 3)%Q 0
         (snd (call (use_jutsu "Fist") (at_time 0) (init 100 0.5)))
       = (Ok true, S reads,
          set_cooldowns
            (<["Fist" := (inject_Z (Z.of_nat reads) + 3
                          + default 2.0
                              (cooldown_durations
                                 (snd (call (use_jutsu "Fist") (at_time 0)
                                         (init 100 0.5))) !! "Fist"))%Q]>
               (cooldowns (snd (call (use_jutsu "Fist") (at_time 0)
                                  (init 100 0.5)))))
            (set_current_chakra
               (current_chakra (snd (call (use_jutsu "Fist") (at_time 0)
                                       (init 100 0.5))) - c)%Q
               (snd (call (use_jutsu "Fist") (at_time 0) (init 100 0.5))))).
Proof.
  apply (use_jutsu_clock_reads "Fist"
           (fun n => inject_Z (Z.of_nat n) + 3)%Q
           (snd (call (use_jutsu "Fist") (at_time 0) (init 100 0.5)))).
  exists 30%Q. split; [vm_compute; reflexivity|].
  split; vm_compute; discriminate.
Defined.

Lemma reset_restores_witness :
  fst (call (use_jutsu "Fist") (at_time 0.5)
         (reset (snd (call (use_jutsu "Fist") (at_time 0) (init 100 0.5)))))
  = Ok true.
Proof.
  apply (reset_restores
           (snd (call (use_jutsu "Fist") (at_time 0) (init 100 0.5)))).
  exists 30%Q. split; [vm_compute; reflexivity|]. vm_compute. discriminate.
Defined.

End Cooldowns.

(** ** The chakra bar *)

Section ChakraBar.
Import ChakraSystem.

Lemma percentage_eq s :
  ~ (max_chakra s == 0)%Q ->
  get_chakra_percentage s
  = inr ((current_chakra s / max_chakra s) * 100)%Q.
Proof.
  intros Hnz. unfold get_chakra_percentage.
  destruct (Qeq_bool (max_chakra s) 0) eqn:E; [|reflexivity].
  apply Qeq_bool_iff in E. contradiction.
Qed.

Lemma ratio_times_max s :
  ~ (max_chakra s == 0)%Q ->
  (current_chakra s == (current_chakra s / max_chakra s) * max_chakra s)%Q.
Proof. intros Hnz. field. exact Hnz. Qed.

(** X6. [get_chakra_percentage] raises [ZeroDivisionError] when
    [max_chakra] is 0.  With [max_chakra > 0] and
    [0 <= current_chakra <= max_chakra] it returns a value between 0 and
    100, and after [reset] it returns 100 whenever [max_chakra] is not 0. *)
Theorem percentage_range (s : ChakraSystem.t) :
  ((max_chakra s == 0)%Q -> get_chakra_percentage s = inl ZeroDivisionError)
  /\ ((0 < max_chakra s)%Q -> level_in_range s ->
      exists p, get_chakra_percentage s = inr p /\ (0 <= p <= 100)%Q)
  /\ (~ (max_chakra s == 0)%Q ->
      exists p, get_chakra_percentage (reset s) = inr p /\ (p == 100)%Q).
Proof.
  split; [|split].
  - intros Hz. unfold get_chakra_percentage.
    apply Qeq_bool_iff in Hz. now rewrite Hz.
  - intros Hpos [Hlo Hhi].
    rewrite percentage_eq by lra.
    eexists. split; [reflexivity|].
    assert (H0 : (0 <= current_chakra s / max_chakra s)%Q)
      by (apply Qle_shift_div_l; lra).
    assert (H1 : (current_chakra s / max_chakra s <= 1)%Q)
      by (apply Qle_shift_div_r; lra).
    lra.
  - intros Hnz. rewrite percentage_eq by exact Hnz.
    eexists. split; [reflexivity|]. simpl. field. exact Hnz.
Qed.

Lemma percentage_range_witness :
  let s := snd (call (use_jutsu "Fist") (at_time 0) (init 100 0.5)) in
  ((max_chakra s == 0)%Q -> get_chakra_percentage s = inl ZeroDivisionError)
  /\ (exists p, get_chakra_percentage s = inr p /\ (0 <= p <= 100)%Q)
  /\ (exists p, get_chakra_percentage (reset s) = inr p /\ (p == 100)%Q).
Proof.
  intros s. destruct (percentage_range s) as (H1 & H2 & H3).
  split; [exact H1|]. split.
  - apply H2; [reflexivity|]. split; vm_compute; discriminate.
  - apply H3. discriminate.
Defined.

(** The thresholds of the colour in terms of the level, over exact
    numbers. *)
Lemma color_thresholds_exact (s : ChakraSystem.t) :
  (0 < max_chakra s)%Q ->
  ((0.6 * max_chakra s < current_chakra s)%Q ->
   get_chakra_color s = inr (0, 255, 0)%Z)
  /\ ((0.3 * max_chakra s < current_chakra s)%Q ->
      (current_chakra s <= 0.6 * max_chakra s)%Q ->
      get_chakra_color s = inr (0, 255, 255)%Z)
  /\ ((current_chakra s <= 0.3 * max_chakra s)%Q ->
      get_chakra_color s = inr (0, 0, 255)%Z).
Proof.
  intros Hpos. unfold get_chakra_color.
  rewrite percentage_eq by lra.
  pose proof (ratio_times_max s) as Hr.
  set (q := (current_chakra s / max_chakra s)%Q) in *.
  assert (Hcur : (current_chakra s == q * max_chakra s)%Q) by (apply Hr; lra).
  assert (H6 : (0.6 * max_chakra s < current_chakra s <-> 60 < q * 100)%Q).
  { rewrite Hcur, Qmult_lt_r by exact Hpos. split; intros; lra. }
  assert (H3 : (0.3 * max_chakra s < current_chakra s <-> 30 < q * 100)%Q).
  { rewrite Hcur, Qmult_lt_r by exact Hpos. split; intros; lra. }
  simpl. split; [|split].
  - intros H. apply H6, Qltb_true in H. now rewrite H.
  - intros Hlo Hhi. apply H3, Qltb_true in Hlo.
    assert (Hn : Qltb 60 (q * 100) = false).
    { apply Qltb_false. apply Qnot_lt_le. intros H. apply H6 in H. lra. }
    now rewrite Hn, Hlo.
  - intros Hle.
    assert (Hn6 : Qltb 60 (q * 100) = false).
    { apply Qltb_false. apply Qnot_lt_le. intros H. apply H6 in H. lra. }
    assert (Hn3 : Qltb 30 (q * 100) = false).
    { apply Qltb_false. apply Qnot_lt_le. intros H. apply H3 in H. lra. }
    now rewrite Hn6, Hn3.
Qed.

End ChakraBar.

(** ** Regeneration over several ticks *)

Section Regeneration.
Import ChakraSystem.

Lemma regenerate_keeps s :
  max_chakra (regenerate s) = max_chakra s
  /\ regen_rate (regenerate s) = regen_rate s
  /\ cooldowns (regenerate s) = cooldowns s
  /\ jutsu_costs (regenerate s) = jutsu_costs s
  /\ cooldown_durations (regenerate s) = cooldown_durations s.
Proof.
  destruct (regenerate_cases s) as [(_ & ->) | (_ & ->)]; repeat split.
Qed.

Lemma iter_regenerate_keeps k s :
  max_chakra (Nat.iter k regenerate s) = max_chakra s
  /\ regen_rate (Nat.iter k regenerate s) = regen_rate s
  /\ cooldowns (Nat.iter k regenerate s) = cooldowns s
  /\ jutsu_costs (Nat.iter k regenerate s) = jutsu_costs s
  /\ cooldown_durations (Nat.iter k regenerate s) = cooldown_durations s.
Proof.
  induction k as [|k IH]; [repeat split|]. simpl.
  destruct (regenerate_keeps (Nat.iter k regenerate s)) as (-> & -> & -> & -> & ->).
  exact IH.
Qed.

Lemma inject_succ k :
  (inject_Z (Z.of_nat (S k)) == inject_Z (Z.of_nat k) + 1)%Q.
Proof.
  rewrite Nat2Z.inj_succ. unfold Z.succ. rewrite inject_Z_plus. reflexivity.
Qed.

(** The level after [k] calls of [regenerate], over exact numbers. *)
Lemma regenerate_iter_exact (k : nat) (s : ChakraSystem.t) :
  (current_chakra s <= max_chakra s)%Q ->
  (0 <= regen_rate s)%Q ->
  (current_chakra (Nat.iter k regenerate s)
   == Qmin (max_chakra s)
           (current_chakra s + inject_Z (Z.of_nat k) * regen_rate s))%Q
  /\ cooldowns (Nat.iter k regenerate s) = cooldowns s
  /\ ((max_chakra s <= current_chakra s + inject_Z (Z.of_nat k) * regen_rate s)%Q ->
      (current_chakra (Nat.iter k regenerate s) == max_chakra s)%Q).
Proof.
  intros Hle Hr.
  assert (Hmain :
    (current_chakra (Nat.iter k regenerate s)
     == Qmin (max_chakra s)
             (current_chakra s + inject_Z (Z.of_nat k) * regen_rate s))%Q).
  { induction k as [|k IH].
    - change (inject_Z (Z.of_nat 0)) with 0%Q. simpl Nat.iter.
      rewrite Q.min_r; lra.
    - simpl Nat.iter.
      destruct (iter_regenerate_keeps k s) as (Hm & Hg & _).
      pose proof (inject_succ k) as HK.
      set (K := inject_Z (Z.of_nat k)) in *.
      set (K' := inject_Z (Z.of_nat (S k))) in *.
      set (sk := Nat.iter k regenerate s) in *.
      destruct (Q.min_spec (max_chakra s) (current_chakra s + K * regen_rate s))
        as [[Hk1 Hk2] | [Hk1 Hk2]];
      destruct (Q.min_spec (max_chakra s) (current_chakra s + K' * regen_rate s))
        as [[Hs1 Hs2] | [Hs1 Hs2]];
      rewrite Hs2; rewrite Hk2 in IH; rewrite HK in Hs1;
      (destruct (regenerate_cases sk) as [(Hlt & ->) | (Hge & ->)];
       [ simpl; rewrite Hm, Hg in *;
         destruct (Q.min_spec (max_chakra s)
                     (current_chakra sk + regen_rate s))
           as [[Hn1 Hn2] | [Hn1 Hn2]]; rewrite Hn2;
         try rewrite HK; lra
       | rewrite Hm in Hge; try rewrite HK; lra ]). }
  split; [exact Hmain|]. split; [apply iter_regenerate_keeps|].
  intros Hfull. rewrite Hmain. apply Q.min_l. exact Hfull.
Qed.

End Regeneration.

(** ** The chakra bar of the application *)

Section AppChakra.
Import ChakraSystem.

Lemma init_costs_integral m r a c :
  jutsu_costs (init m r) !! a = Some c -> exists z : Z, c = inject_Z z.
Proof.
  intros H. unfold init in H. simpl in H.
  repeat (apply lookup_insert_Some in H; destruct H as [[_ <-]|[_ H]];
          [eexists; reflexivity|]).
  rewrite lookup_empty in H. discriminate.
Qed.

Lemma half_integral_minus q z :
  half_integral q -> half_integral (q - inject_Z z).
Proof.
  intros [k Hk]. exists (k - 2 * z)%Z. rewrite Hk.
  unfold Qeq, Qminus, Qplus, Qopp, inject_Z. simpl. lia.
Qed.

Lemma half_integral_step q :
  half_integral q -> half_integral (Qmin 100 (q + 0.5)).
Proof.
  intros [k Hk].
  destruct (Q.min_spec 100 (q + 0.5)) as [[_ H] | [_ H]].
  - exists 200%Z. rewrite H. reflexivity.
  - exists (k + 1)%Z. rewrite H, Hk.
    unfold Qeq, Qplus. simpl. lia.
Qed.

Lemma app_config_init : app_config (init 100 0.5).
Proof. repeat split. Qed.

Lemma use_jutsu_app a clk s :
  app_config s -> half_integral (current_chakra s) ->
  app_config (snd (call (use_jutsu a) clk s))
  /\ half_integral (current_chakra (snd (call (use_jutsu a) clk s))).
Proof.
  intros (Hm & Hr & Hc) Hh. unfold call.
  destruct (use_jutsu_cases a clk 0 s)
    as [(_ & c & n' & Hcost & _ & E) | (_ & n' & E)];
    rewrite E; simpl; [|repeat split; assumption].
  split; [repeat split; assumption|].
  rewrite Hc in Hcost.
  destruct (init_costs_integral _ _ _ _ Hcost) as [z ->].
  now apply half_integral_minus.
Qed.

Lemma regenerate_app s :
  app_config s -> half_integral (current_chakra s) ->
  app_config (regenerate s) /\ half_integral (current_chakra (regenerate s)).
Proof.
  intros (Hm & Hr & Hc) Hh.
  destruct (regenerate_cases s) as [(_ & ->) | (_ & ->)];
    [|repeat split; assumption].
  split; [repeat split; assumption|]. simpl.
  rewrite Hm, Hr. now apply half_integral_step.
Qed.

Lemma reset_app s :
  app_config s -> app_config (reset s) /\ half_integral (current_chakra (reset s)).
Proof.
  intros (Hm & Hr & Hc).
  split; [repeat split; assumption|]. simpl. rewrite Hm.
  exists 200%Z. reflexivity.
Qed.

Lemma apply_ops_app ops :
  forall s,
    app_config s -> half_integral (current_chakra s) ->
    app_config (apply_ops ops s)
    /\ half_integral (current_chakra (apply_ops ops s)).
Proof.
  induction ops as [|o ops IH]; intros s Hc Hh; simpl; [now split|].
  destruct o as [a clk| |]; simpl.
  - destruct (use_jutsu_app a clk s Hc Hh). now apply IH.
  - destruct (regenerate_app s Hc Hh). now apply IH.
  - destruct (reset_app s Hc). now apply IH.
Qed.

Lemma chakra_inv_init : chakra_inv (init 100 0.5).
Proof.
  split; [split; discriminate|]. split; [discriminate|].
  apply init_costs_nonneg.
Qed.

(** What holds of the application's chakra system after any series of
    operations. *)
Lemma app_chakra_state ops :
  let s := apply_ops ops (init 100 0.5) in
  app_config s /\ half_integral (current_chakra s)
  /\ (0 <= current_chakra s <= 100)%Q.
Proof.
  intros s. subst s.
  destruct (apply_ops_app ops (init 100 0.5) app_config_init) as [Hc Hh].
  { exists 200%Z. reflexivity. }
  split; [exact Hc|]. split; [exact Hh|].
  destruct (apply_ops_inv ops _ chakra_inv_init) as ((Hlo & Hhi) & _).
  destruct Hc as (Hm & _). rewrite Hm in Hhi.
  split; assumption.
Qed.

(** X7. The colour of the chakra bar in the application.  The chakra
    system is constructed as [ChakraSystem(max_chakra=100, regen_rate=0.5)]
    and the costs are whole numbers, so after any series of [use_jutsu]
    (with any clock), [regenerate] and [reset] the level is a multiple of
    0.5 between 0 and 100; and [get_chakra_color] is green [(0, 255, 0)]
    when the level is above 60, yellow [(0, 255, 255)] when it is above 30
    and at most 60, and red [(0, 0, 255)] when it is at most 30. *)
Theorem bar_color_by_level (ops : list chakra_op) :
  let s := apply_ops ops (init 100 0.5) in
  half_integral (current_chakra s)
  /\ (0 <= current_chakra s <= 100)%Q
  /\ ((60 < current_chakra s)%Q ->
      get_chakra_color s = inr (0, 255, 0)%Z)
  /\ ((30 < current_chakra s)%Q -> (current_chakra s <= 60)%Q ->
      get_chakra_color s = inr (0, 255, 255)%Z)
  /\ ((current_chakra s <= 30)%Q ->
      get_chakra_color s = inr (0, 0, 255)%Z).
Proof.
  intros s.
  destruct (app_chakra_state ops) as ((Hm & _) & Hh & Hr). fold s in Hm, Hh, Hr.
  split; [exact Hh|]. split; [exact Hr|].
  destruct (color_thresholds_exact s) as (Hg & Hy & Hd);
    [rewrite Hm; reflexivity|].
  rewrite Hm in Hg, Hy, Hd.
  split; [|split].
  - intros H. apply Hg. lra.
  - intros H1 H2. apply Hy; lra.
  - intros H. apply Hd. lra.
Qed.

Lemma bar_color_by_level_witness :
  let s := apply_ops [OpUseJutsu "Peace Sign" (at_time 1); OpRegenerate]
                     (init 100 0.5) in
  let s' := apply_ops [OpUseJutsu "Peace Sign" (at_time 1); OpRegenerate;
                       OpUseJutsu "Point" (at_time 2)]
                      (init 100 0.5) in
  let s'' := apply_ops [OpUseJutsu "Peace Sign" (at_time 1); OpRegenerate;
                        OpUseJutsu "Point" (at_time 2);
                        OpUseJutsu "Fist" (at_time 3)]
                       (init 100 0.5) in
  ((current_chakra s == 60.5)%Q /\ get_chakra_color s = inr (0, 255, 0)%Z)
  /\ ((current_chakra s' == 45.5)%Q
      /\ get_chakra_color s' = inr (0, 255, 255)%Z)
  /\ ((current_chakra s'' == 15.5)%Q
      /\ get_chakra_color s'' = inr (0, 0, 255)%Z).
Proof.
  intros s s' s''.
  pose proof (bar_color_by_level
                [OpUseJutsu "Peace Sign" (at_time 1); OpRegenerate])
    as (_ & _ & Hg & _ & _).
  pose proof (bar_color_by_level
                [OpUseJutsu "Peace Sign" (at_time 1); OpRegenerate;
                 OpUseJutsu "Point" (at_time 2)])
    as (_ & _ & _ & Hy & _).
  pose proof (bar_color_by_level
                [OpUseJutsu "Peace Sign" (at_time 1); OpRegenerate;
                 OpUseJutsu "Point" (at_time 2);
                 OpUseJutsu "Fist" (at_time 3)])
    as (_ & _ & _ & _ & Hr).
  split; [|split]; (split; [vm_compute; reflexivity|]).
  - apply Hg. vm_compute. reflexivity.
  - apply Hy; [vm_compute; reflexivity | vm_compute; discriminate].
  - apply Hr. vm_compute. discriminate.
Defined.

(** X8. Refilling the chakra bar in the application.  After any series
    of [use_jutsu], [regenerate] and [reset] on the chakra system of the
    application the level is a multiple of 0.5, and [k] further calls of
    [regenerate] (with nothing spent in between) leave the level at
    [min(100, current_chakra + k * 0.5)] and the cooldowns unchanged; so
    the bar is full again as soon as [current_chakra + k * 0.5 >= 100],
    and in any case after 200 calls. *)
Theorem bar_refills (ops : list chakra_op) (k : nat) :
  let s := apply_ops ops (init 100 0.5) in
  half_integral (current_chakra s)
  /\ (current_chakra (Nat.iter k regenerate s)
      == Qmin 100 (current_chakra s + inject_Z (Z.of_nat k) * 0.5))%Q
  /\ cooldowns (Nat.iter k regenerate s) = cooldowns s
  /\ ((100 <= current_chakra s + inject_Z (Z.of_nat k) * 0.5)%Q ->
      (current_chakra (Nat.iter k regenerate s) == 100)%Q)
  /\ (current_chakra (Nat.iter 200 regenerate s) == 100)%Q.
Proof.
  intros s.
  destruct (app_chakra_state ops) as ((Hm & Hg & _) & Hh & Hlo & Hhi).
  fold s in Hm, Hg, Hh, Hlo, Hhi.
  assert (Hle : (current_chakra s <= max_chakra s)%Q) by now rewrite Hm.
  assert (Hrate : (0 <= regen_rate s)%Q) by (rewrite Hg; discriminate).
  destruct (regenerate_iter_exact k s Hle Hrate) as (H1 & H2 & H3).
  rewrite Hm, Hg in H1, H3.
  split; [exact Hh|]. split; [exact H1|]. split; [exact H2|].
  split; [exact H3|].
  destruct (regenerate_iter_exact 200 s Hle Hrate) as (_ & _ & H4).
  rewrite Hm, Hg in H4. apply H4.
  change (inject_Z (Z.of_nat 200)) with 200%Q. lra.
Qed.

Lemma bar_refills_witness :
  let s := apply_ops [OpUseJutsu "Fist" (at_time 1)] (init 100 0.5) in
  (current_chakra s == 70)%Q
  /\ (current_chakra (Nat.iter 60 regenerate s) == 100)%Q.
Proof.
  intros s.
  pose proof (bar_refills [OpUseJutsu "Fist" (at_time 1)] 60)
    as (_ & _ & _ & Hfull & _).
  split; [vm_compute; reflexivity|].
  apply Hfull. vm_compute. discriminate.
Defined.

End AppChakra.

(** ** Finger counting and recognition *)

Section Fingers.
Import GestureDetector.

Lemma Qltb_mirror a b : Qltb (1 - a) (1 - b) = Qltb b a.
Proof.
  destruct (Qltb b a) eqn:E.
  - apply Qltb_true in E. apply Qltb_true. lra.
  - apply Qltb_false in E. apply Qltb_false. lra.
Qed.

Ltac split_landmarks lm tac :=
  do 21 (destruct lm as [|? lm]; [tac|]).

Lemma count_fingers_short lm label :
  (length lm < 21)%nat -> count_fingers lm label = inl IndexError.
Proof.
  intros H. split_landmarks lm ltac:(reflexivity).
  simpl in H. lia.
Qed.

Lemma bit_cases (b : bool) : (if b then 1 else 0)%Z = 0%Z \/ (if b then 1 else 0)%Z = 1%Z.
Proof. destruct b; auto. Qed.

Lemma count_fingers_long lm label :
  (21 <= length lm)%nat ->
  exists fingers, count_fingers lm label = inr fingers /\ finger_states fingers.
Proof.
  intros H. split_landmarks lm ltac:(simpl in H; lia).
  unfold count_fingers, tip_and_pip, index. cbn.
  eexists. split; [reflexivity|]. split; [reflexivity|].
  destruct (String.eqb label "Right");
    repeat first [apply List.Forall_nil
                 | apply List.Forall_cons; [apply bit_cases|]].
Qed.

(** X9. [count_fingers] raises [IndexError] when it is given fewer than
    21 landmarks; with 21 or more it returns five finger states, each 0 or
    1, whatever the coordinates and the hand label. *)
Theorem count_fingers_total (lm : list landmark) (label : string) :
  ((length lm < 21)%nat -> count_fingers lm label = inl IndexError)
  /\ ((21 <= length lm)%nat ->
      exists fingers,
        count_fingers lm label = inr fingers /\ finger_states fingers).
Proof.
  split; [apply count_fingers_short|apply count_fingers_long].
Qed.

Lemma count_fingers_total_witness :
  (exists fingers,
      count_fingers (repeat (mk_landmark 0.5 0.5) 21) "Left" = inr fingers
      /\ finger_states fingers)
  /\ count_fingers (repeat (mk_landmark 0.5 0.5) 20) "Left" = inl IndexError.
Proof.
  split.
  - apply (count_fingers_total (repeat (mk_landmark 0.5 0.5) 21) "Left").
    simpl. lia.
  - apply (count_fingers_total (repeat (mk_landmark 0.5 0.5) 20) "Left").
    simpl. lia.
Defined.

(** X10. Flipping the image horizontally ([x] becomes [1 - x]) and
    swapping the hand label gives the same finger states: for every label
    other than "Right" (the code treats all of them as the left hand),
    [count_fingers] of the mirrored landmarks with that label equals
    [count_fingers] of the landmarks with "Right", and the other way
    round. *)
Theorem count_fingers_mirror (lm : list landmark) (label : string) :
  label <> "Right" ->
  count_fingers (mirror lm) label = count_fingers lm "Right"
  /\ count_fingers (mirror lm) "Right" = count_fingers lm label.
Proof.
  intros Hl. apply String.eqb_neq in Hl.
  split_landmarks lm ltac:(split; reflexivity).
  unfold count_fingers, tip_and_pip, index. cbn. rewrite Hl.
  rewrite !Qltb_mirror. split; reflexivity.
Qed.

Lemma count_fingers_mirror_witness :
  count_fingers (mirror (repeat (mk_landmark 0.2 0.5) 21)) "Left"
  = count_fingers (repeat (mk_landmark 0.2 0.5) 21) "Right"
  /\ count_fingers (mirror (repeat (mk_landmark 0.2 0.5) 21)) "Right"
     = count_fingers (repeat (mk_landmark 0.2 0.5) 21) "Left".
Proof.
  apply (count_fingers_mirror (repeat (mk_landmark 0.2 0.5) 21) "Left").
  discriminate.
Defined.

Lemma finger_states_cases fingers :
  finger_states fingers ->
  exists a b c d e,
    fingers = [a; b; c; d; e]
    /\ (a = 0 \/ a = 1)%Z /\ (b = 0 \/ b = 1)%Z /\ (c = 0 \/ c = 1)%Z
    /\ (d = 0 \/ d = 1)%Z /\ (e = 0 \/ e = 1)%Z.
Proof.
  intros [Hlen HF].
  destruct fingers as [|a [|b [|c [|d [|e [|]]]]]]; try discriminate Hlen.
  rewrite !Forall_cons in HF. destruct HF as (Ha & Hb & Hc & Hd & He & _).
  exists a, b, c, d, e. auto 10.
Qed.

(** X11. On five finger states, each 0 or 1, every gesture name stands
    for exactly one pattern of [thumb, index, middle, ring, pinky]; the
    other 24 patterns are "Unknown". *)
Theorem recognize_gesture_patterns (fingers : list Z) :
  finger_states fingers ->
  (recognize_gesture fingers = "Fist" <-> fingers = [0; 0; 0; 0; 0]%Z)
  /\ (recognize_gesture fingers = "Open Palm" <-> fingers = [1; 1; 1; 1; 1]%Z)
  /\ (recognize_gesture fingers = "Peace Sign" <-> fingers = [0; 1; 1; 0; 0]%Z)
  /\ (recognize_gesture fingers = "Thumbs Up" <-> fingers = [1; 0; 0; 0; 0]%Z)
  /\ (recognize_gesture fingers = "Rock Sign" <-> fingers = [0; 1; 0; 0; 1]%Z)
  /\ (recognize_gesture fingers = "Gun Sign" <-> fingers = [1; 1; 0; 0; 0]%Z)
  /\ (recognize_gesture fingers = "Three Fingers"
      <-> fingers = [1; 1; 1; 0; 0]%Z)
  /\ (recognize_gesture fingers = "Point" <-> fingers = [0; 1; 0; 0; 0]%Z).
Proof.
  intros H. apply finger_states_cases in H.
  destruct H as (a & b & c & d & e & -> & Ha & Hb & Hc & Hd & He).
  destruct Ha as [-> | ->], Hb as [-> | ->], Hc as [-> | ->],
           Hd as [-> | ->], He as [-> | ->];
    vm_compute;
    repeat split; intros H; first [reflexivity | discriminate H].
Qed.

Lemma recognize_gesture_patterns_witness :
  recognize_gesture [0; 1; 0; 0; 1]%Z = "Rock Sign"
  <-> [0; 1; 0; 0; 1]%Z = [0; 1; 0; 0; 1]%Z.
Proof.
  apply (recognize_gesture_patterns [0; 1; 0; 0; 1]%Z).
  split; [reflexivity|].
  repeat first [apply List.Forall_nil | apply List.Forall_cons; [auto|]].
Defined.

Lemma recognize_gesture_cases fingers :
  In (recognize_gesture fingers)
     ["Fist"; "Open Palm"; "Peace Sign"; "Thumbs Up"; "Rock Sign";
      "Gun Sign"; "Three Fingers"; "Point"; "Unknown"].
Proof.
  unfold recognize_gesture.
  repeat match goal with
         | |- context [if ?b then _ else _] => destruct b
         end; simpl; auto 12.
Qed.

(** X12. The recogniser and the tables agree.  Whatever list
    [recognize_gesture] is given, its answer is "Unknown" or a name that
    has an entry in [jutsu_costs], in [cooldown_durations] and in
    [jutsu_map] as [__init__] fills them; and every name with a cost is the
    answer to some pattern of five finger states. *)
Theorem recognised_names_are_registered (fingers : list Z) (m r : Q) :
  (recognize_gesture fingers = "Unknown"
   \/ (is_Some (ChakraSystem.jutsu_costs (ChakraSystem.init m r)
                  !! recognize_gesture fingers)
       /\ is_Some (ChakraSystem.cooldown_durations (ChakraSystem.init m r)
                     !! recognize_gesture fingers)
       /\ is_Some (JutsuEngine.jutsu_map JutsuEngine.init
                     !! recognize_gesture fingers)))
  /\ (forall a,
        is_Some (ChakraSystem.jutsu_costs (ChakraSystem.init m r) !! a) ->
        exists pattern,
          finger_states pattern /\ recognize_gesture pattern = a).
Proof.
  split.
  - pose proof (recognize_gesture_cases fingers) as H. simpl in H.
    repeat (destruct H as [<- | H];
            [right; repeat split; vm_compute; solve [eauto]|]).
    destruct H as [<- | []]. now left.
  - intros a [c Hc]. unfold ChakraSystem.init in Hc. simpl in Hc.
    assert (Hfs : forall p, length p = 5%nat ->
                            Forall (fun f => f = 0%Z \/ f = 1%Z) p ->
                            finger_states p) by (intros; split; assumption).
    repeat (apply lookup_insert_Some in Hc; destruct Hc as [[<- _]|[_ Hc]];
            [eexists;
             split; [|first
               [ exact (eq_refl : recognize_gesture [0;0;0;0;0]%Z = _)
               | exact (eq_refl : recognize_gesture [1;1;1;1;1]%Z = _)
               | exact (eq_refl : recognize_gesture [0;1;1;0;0]%Z = _)
               | exact (eq_refl : recognize_gesture [1;0;0;0;0]%Z = _)
               | exact (eq_refl : recognize_gesture [0;1;0;0;1]%Z = _)
               | exact (eq_refl : recognize_gesture [1;1;0;0;0]%Z = _)
               | exact (eq_refl : recognize_gesture [1;1;1;0;0]%Z = _)
               | exact (eq_refl : recognize_gesture [0;1;0;0;0]%Z = _) ]];
             apply Hfs; [reflexivity|];
             repeat first [apply List.Forall_nil
                          | apply List.Forall_cons; [auto|]]
            |]).
    rewrite lookup_empty in Hc. discriminate.
Qed.

Lemma recognised_names_are_registered_witness :
  exists pattern,
    finger_states pattern /\ recognize_gesture pattern = "Gun Sign".
Proof.
  apply (recognised_names_are_registered [] 100 0.5).
  vm_compute. eauto.
Defined.

Lemma recognize_gesture_truthy fingers :
  truthy_str (Some (recognize_gesture fingers)) = true.
Proof.
  pose proof (recognize_gesture_cases fingers) as H. simpl in H.
  repeat (destruct H as [<- | H]; [reflexivity|]). destruct H.
Qed.

(** X13. [get_gesture] returns [(None, None)], without drawing, when no
    hand was detected ([multi_hand_landmarks] is [None] or empty).
    Otherwise only the first hand counts.  When drawing its landmarks
    raises, [get_gesture] raises that exception before any finger is
    counted.  When the drawing returns: with 21 or more landmarks and a
    handedness label the result is a gesture name, never [None] or the
    empty string, together with the landmarks of that hand, and the further
    hands change nothing; with no handedness entry it raises
    [IndexError]. *)
Theorem get_gesture_first_hand
    (draw : list landmark -> option pyexn) (results : detection) :
  (multi_hand_landmarks results = None
   \/ multi_hand_landmarks results = Some [] ->
   get_gesture draw results = inr (None, None))
  /\ (forall hand rest e,
        multi_hand_landmarks results = Some (hand :: rest) ->
        draw hand = Some e ->
        get_gesture draw results = inl e)
  /\ (forall hand rest label labels,
        multi_hand_landmarks results = Some (hand :: rest) ->
        draw hand = None ->
        multi_handedness results = label :: labels ->
        (21 <= length hand)%nat ->
        exists g,
          get_gesture draw results = inr (Some g, Some hand)
          /\ truthy_str (Some g) = true
          /\ get_gesture draw (mk_detection (Some [hand]) [label])
             = get_gesture draw results)
  /\ (forall hand rest,
        multi_hand_landmarks results = Some (hand :: rest) ->
        draw hand = None ->
        multi_handedness results = [] ->
        get_gesture draw results = inl IndexError).
Proof.
  unfold get_gesture. split; [|split; [|split]].
  - intros [-> | ->]; reflexivity.
  - intros hand rest e -> ->. reflexivity.
  - intros hand rest label labels -> Hd -> Hlen. simpl. rewrite Hd.
    destruct (count_fingers_long hand label Hlen) as (fingers & -> & _).
    simpl. eexists. split; [reflexivity|]. split; [|reflexivity].
    apply recognize_gesture_truthy.
  - intros hand rest -> -> ->. reflexivity.
Qed.

Lemma get_gesture_first_hand_witness :
  let draw := fun lm : list landmark =>
                if (length lm <? 21)%nat then Some ValueError else None in
  (exists g,
      get_gesture draw
        (mk_detection (Some [repeat (mk_landmark 0.5 0.5) 21; []])
           ["Left"; "Right"])
      = inr (Some g, Some (repeat (mk_landmark 0.5 0.5) 21))
      /\ truthy_str (Some g) = true
      /\ get_gesture draw
           (mk_detection (Some [repeat (mk_landmark 0.5 0.5) 21]) ["Left"])
         = get_gesture draw
             (mk_detection (Some [repeat (mk_landmark 0.5 0.5) 21; []])
                ["Left"; "Right"]))
  /\ get_gesture draw
       (mk_detection (Some [repeat (mk_landmark 0.5 0.5) 20]) ["Left"])
     = inl ValueError.
Proof.
  intros draw. split.
  - apply (get_gesture_first_hand draw
             (mk_detection (Some [repeat (mk_landmark 0.5 0.5) 21; []])
                ["Left"; "Right"]))
      with (rest := [[]]) (labels := ["Right"]).
    + reflexivity.
    + reflexivity.
    + reflexivity.
    + simpl. lia.
  - apply (get_gesture_first_hand draw
             (mk_detection (Some [repeat (mk_landmark 0.5 0.5) 20]) ["Left"]))
      with (hand := repeat (mk_landmark 0.5 0.5) 20) (rest := []).
    + reflexivity.
    + reflexivity.
Defined.

End Fingers.

(** ** Active effects *)

Section Effects.
Import JutsuEngine.

Lemma activate_jutsu_eq g clk n e :
  activate_jutsu g clk n e =
    match jutsu_map e !! g with
    | Some nm =>
        (Ok (Some nm), S n,
         mk (jutsu_map e) (active_effects e ++ [mk_effect nm (clk n) 0.0%Q]))
    | None => (Ok None, n, e)
    end.
Proof.
  unfold activate_jutsu. rewrite run_bind, run_get.
  unfold contains, getitem.
  destruct (jutsu_map e !! g); reflexivity.
Qed.

(** X14. [activate_jutsu] never raises and returns what [get_jutsu_name]
    returns.  For a gesture without a jutsu it returns [None] and leaves the
    engine unchanged; for a gesture with jutsu [nm] it appends to
    [active_effects] one effect named [nm], started at the time of the
    call, with progress 0, and changes nothing else. *)
Theorem activate_jutsu_spec (g : string) (t : Q) (e : JutsuEngine.t) :
  let '(r, e') := call (activate_jutsu g) (at_time t) e in
  r = Ok (get_jutsu_name g e)
  /\ jutsu_map e' = jutsu_map e
  /\ (get_jutsu_name g e = None -> e' = e)
  /\ (forall nm, get_jutsu_name g e = Some nm ->
                 active_effects e'
                 = active_effects e ++ [mk_effect nm t 0.0%Q]).
Proof.
  unfold call, get_jutsu_name. rewrite activate_jutsu_eq.
  destruct (jutsu_map e !! g) as [nm|]; simpl.
  - repeat split; [discriminate|]. now intros nm' [= <-].
  - repeat split. discriminate.
Qed.

Lemma activate_jutsu_spec_witness :
  active_effects (snd (call (activate_jutsu "Fist") (at_time 1) init))
  = active_effects init
    ++ [mk_effect "Fire Style: Fireball Jutsu" 1 0.0%Q].
Proof.
  pose proof (activate_jutsu_spec "Fist" 1 init) as H.
  destruct (call (activate_jutsu "Fist") (at_time 1) init) as [r e'].
  destruct H as (_ & _ & _ & H). apply H. vm_compute. reflexivity.
Defined.

Lemma expired_eqb d now a b :
  effect_eqb a b = true -> expired d now a = expired d now b.
Proof.
  unfold effect_eqb, expired. rewrite !andb_true_iff.
  intros [[_ H] _]. apply Qeq_bool_iff in H.
  destruct (Qltb d (now - start_time b)) eqn:E.
  - apply Qltb_true in E. apply Qltb_true. lra.
  - apply Qltb_false in E. apply Qltb_false. lra.
Qed.

Lemma effect_eqb_refl a : effect_eqb a a = true.
Proof.
  unfold effect_eqb. rewrite String.eqb_refl. simpl.
  rewrite !andb_true_iff. split; apply Qeq_bool_iff; reflexivity.
Qed.

Lemma renders_cons render d now x l :
  renders render d now (x :: l) ->
  (expired d now x = false -> render (refreshed d now x) = None)
  /\ renders render d now l.
Proof.
  intros H. split.
  - intros Hx. apply H; [now left|exact Hx].
  - intros y Hy. apply H. now right.
Qed.

Lemma scan_effects_eq render d now l :
  ~ (d == 0)%Q ->
  renders render d now l ->
  scan_effects render d now l
  = (None,
     map (fun e => if expired d now e then e else refreshed d now e) l,
     List.filter (expired d now) l).
Proof.
  intros Hd. induction l as [|e l IH]; intros Hr; [reflexivity|].
  apply renders_cons in Hr. destruct Hr as [He Hl].
  simpl. fold (expired d now e). fold (refreshed d now e). rewrite (IH Hl).
  destruct (expired d now e); [reflexivity|].
  destruct (Qeq_bool d 0) eqn:E.
  { apply Qeq_bool_iff in E. contradiction. }
  now rewrite (He eq_refl).
Qed.

(** When the drawing of some effect raises, the first loop ends with an
    exception and the list has kept all its entries. *)
Lemma scan_effects_raises render d now l :
  ~ (d == 0)%Q ->
  (exists x, In x l /\ expired d now x = false
             /\ render (refreshed d now x) <> None) ->
  exists exn l' rm,
    scan_effects render d now l = (Some exn, l', rm)
    /\ length l' = length l.
Proof.
  intros Hd. induction l as [|e l IH]; intros (x & Hin & Hx & Hr).
  { destruct Hin. }
  simpl. fold (expired d now e). fold (refreshed d now e).
  destruct (expired d now e) eqn:He.
  - destruct Hin as [-> | Hin]; [congruence|].
    destruct (IH (ex_intro _ x (conj Hin (conj Hx Hr))))
      as (exn & l' & rm & -> & Hlen).
    eexists _, _, _. split; [reflexivity|]. simpl. now rewrite Hlen.
  - destruct (Qeq_bool d 0) eqn:E.
    { apply Qeq_bool_iff in E. contradiction. }
    destruct (render (refreshed d now e)) as [exn|] eqn:Hre.
    + eexists _, _, _. split; reflexivity.
    + destruct Hin as [-> | Hin]; [congruence|].
      destruct (IH (ex_intro _ x (conj Hin (conj Hx Hr))))
        as (exn & l' & rm & -> & Hlen).
      eexists _, _, _. split; [reflexivity|]. simpl. now rewrite Hlen.
Qed.

Lemma remove_effects_skip d now x xs :
  forall l,
    expired d now x = false ->
    Forall (fun e => expired d now e = true) xs ->
    remove_effects xs (x :: l)
    = (fst (remove_effects xs l), x :: snd (remove_effects xs l)).
Proof.
  induction xs as [|y xs IH]; intros l Hx Hxs; [reflexivity|].
  apply Forall_cons in Hxs. destruct Hxs as [Hy Hxs].
  simpl. destruct (effect_eqb x y) eqn:E.
  { apply (expired_eqb d now) in E. congruence. }
  destruct (list_remove y l) as [err|l']; simpl; [reflexivity|].
  now apply IH.
Qed.

Lemma remove_effects_filter d now l :
  remove_effects (List.filter (expired d now) l) l
  = (None, List.filter (fun e => negb (expired d now e)) l).
Proof.
  induction l as [|x l IH]; [reflexivity|].
  simpl List.filter. destruct (expired d now x) eqn:Hx; simpl negb; cbv iota.
  - simpl. rewrite effect_eqb_refl. exact IH.
  - rewrite (remove_effects_skip d now) by
      (try assumption; apply Forall_forall; intros e He;
       apply list_elem_of_In, filter_In in He; tauto).
    now rewrite IH.
Qed.

Lemma filter_scanned d now l :
  List.filter (expired d now)
    (map (fun e => if expired d now e then e else refreshed d now e) l)
  = List.filter (expired d now) l
  /\ List.filter (fun e => negb (expired d now e))
       (map (fun e => if expired d now e then e else refreshed d now e) l)
     = surviving d now l.
Proof.
  unfold surviving. induction l as [|x l [IH1 IH2]]; [split; reflexivity|].
  simpl. destruct (expired d now x) eqn:Hx.
  - rewrite Hx. simpl. rewrite IH1, IH2. split; reflexivity.
  - change (expired d now (refreshed d now x)) with (expired d now x).
    rewrite Hx. simpl. rewrite IH1, IH2. split; reflexivity.
Qed.

Lemma update_effects_eq render d clk n e :
  ~ (d == 0)%Q ->
  renders render d (clk n) (active_effects e) ->
  update_effects render d clk n e
  = (inr tt, S n, mk (jutsu_map e) (surviving d (clk n) (active_effects e))).
Proof.
  intros Hd Hr. unfold update_effects.
  rewrite scan_effects_eq by assumption.
  destruct (filter_scanned d (clk n) (active_effects e)) as [H1 H2].
  rewrite <- H1, remove_effects_filter, H2. reflexivity.
Qed.

(** X15. With a positive [effect_duration]: when the drawing raises on
    none of the effects that are drawn, [update_effects] returns normally
    (neither the division nor [list.remove] fails) and its two loops amount
    to a filter: the effects left are, in their order, the effects with
    [now - start_time <= effect_duration], each with its progress set to
    [(now - start_time) / effect_duration]; the gesture table is untouched.
    When the drawing of some effect raises, [update_effects] raises and no
    effect has been removed. *)
Theorem update_effects_filters
    (render : effect -> option pyexn) (d : Q) (clk : Clock) (n : nat)
    (e : JutsuEngine.t) :
  (0 < d)%Q ->
  (renders render d (clk n) (active_effects e) ->
   update_effects render d clk n e
   = (inr tt, S n,
      mk (jutsu_map e) (surviving d (clk n) (active_effects e))))
  /\ ((exists x, In x (active_effects e) /\ expired d (clk n) x = false
                 /\ render (refreshed d (clk n) x) <> None) ->
      exists exn e',
        update_effects render d clk n e = (inl exn, S n, e')
        /\ jutsu_map e' = jutsu_map e
        /\ length (active_effects e') = length (active_effects e)).
Proof.
  intros Hd. split.
  - intros Hr. apply update_effects_eq; [lra|exact Hr].
  - intros Hx. unfold update_effects.
    destruct (scan_effects_raises render d (clk n) (active_effects e))
      as (exn & l' & rm & -> & Hlen); [lra|exact Hx|].
    eexists _, _. split; [reflexivity|]. split; [reflexivity|exact Hlen].
Qed.

Lemma update_effects_filters_witness :
  let render := fun x : effect =>
                  if Qltb (progress x) 0 then Some CvError else None in
  update_effects render 1.5 (at_time 2) 0
    (mk ∅ [mk_effect "a" 0 0; mk_effect "b" 1 0; mk_effect "a" 0 0]%Q)
  = (inr tt, 1%nat,
     mk ∅ (surviving 1.5 2
             [mk_effect "a" 0 0; mk_effect "b" 1 0; mk_effect "a" 0 0]%Q))
  /\ exists exn e',
      update_effects render 1.5 (at_time 2) 0
        (mk ∅ [mk_effect "a" 0 0; mk_effect "c" 3 0]%Q)
      = (inl exn, 1%nat, e')
      /\ jutsu_map e' = ∅
      /\ length (active_effects e') = 2%nat.
Proof.
  intros render. split.
  - apply (update_effects_filters render 1.5 (at_time 2) 0); [reflexivity|].
    intros x Hx Hexp. unfold render.
    destruct Hx as [<- | [<- | [<- | []]]]; try discriminate Hexp; reflexivity.
  - apply (update_effects_filters render 1.5 (at_time 2) 0
             (mk ∅ [mk_effect "a" 0 0; mk_effect "c" 3 0]%Q));
      [reflexivity|].
    exists (mk_effect "c" 3 0). split; [right; now left|].
    split; [reflexivity|]. discriminate.
Defined.

Lemma expired_false d now x :
  expired d now x = false <-> (now - start_time x <= d)%Q.
Proof. unfold expired. apply Qltb_false. Qed.

Lemma in_surviving d now l y :
  In y (surviving d now l)
  <-> exists x, In x l /\ (now - start_time x <= d)%Q
                /\ y = refreshed d now x.
Proof.
  unfold surviving. rewrite in_map_iff. split.
  - intros (x & <- & Hx). apply filter_In in Hx. destruct Hx as [Hin Hx].
    exists x. rewrite negb_true_iff, expired_false in Hx. auto.
  - intros (x & Hin & Hx & ->). exists x. split; [reflexivity|].
    apply filter_In. split; [exact Hin|].
    now rewrite negb_true_iff, expired_false.
Qed.

(** X16. After an [update_effects] at time [now], with a positive
    [effect_duration], during which the drawing did not raise: every
    effect left started at most [effect_duration] ago and has a progress of
    at most 1 (and at least 0 if it did not start after [now]); no effect
    that is still within its duration is dropped; the list has not grown;
    and [has_active_effects] holds exactly when some effect was still
    within its duration. *)
Theorem effects_after_update
    (render : effect -> option pyexn) (d now : Q) (e : JutsuEngine.t) :
  (0 < d)%Q ->
  renders render d now (active_effects e) ->
  let e' := snd (update_effects render d (at_time now) 0 e) in
  (forall y, In y (active_effects e') ->
             (now - start_time y <= d)%Q /\ (progress y <= 1)%Q
             /\ ((start_time y <= now)%Q -> (0 <= progress y)%Q))
  /\ (forall x, In x (active_effects e) -> (now - start_time x <= d)%Q ->
                In (refreshed d now x) (active_effects e'))
  /\ (length (active_effects e') <= length (active_effects e))%nat
  /\ (has_active_effects e' = true
      <-> exists x, In x (active_effects e) /\ (now - start_time x <= d)%Q).
Proof.
  intros Hd Hr. rewrite update_effects_eq by (try lra; exact Hr).
  simpl. unfold at_time.
  split; [|split; [|split]].
  - intros y Hy. apply in_surviving in Hy. destruct Hy as (x & _ & Hx & ->).
    simpl. split; [exact Hx|]. split.
    + apply Qle_shift_div_r; lra.
    + intros Hs. apply Qle_shift_div_l; lra.
  - intros x Hin Hx. apply in_surviving. eauto.
  - unfold surviving. rewrite length_map. apply List.filter_length_le.
  - unfold has_active_effects. simpl. rewrite Nat.ltb_lt. split.
    + intros Hlen.
      destruct (surviving d now (active_effects e)) as [|y l] eqn:E;
        [simpl in Hlen; lia|].
      assert (Hy : In y (surviving d now (active_effects e)))
        by (rewrite E; now left).
      apply in_surviving in Hy. destruct Hy as (x & Hin & Hx & _). eauto.
    + intros (x & Hin & Hx).
      assert (Hy : In (refreshed d now x) (surviving d now (active_effects e)))
        by (apply in_surviving; eauto).
      destruct (surviving d now (active_effects e)); [destruct Hy|].
      simpl. lia.
Qed.

Lemma effects_after_update_witness :
  let render := fun x : effect =>
                  if Qltb (progress x) 0 then Some CvError else None in
  let e := mk ∅ [mk_effect "a" 0 0; mk_effect "b" 1 0]%Q in
  let e' := snd (update_effects render 1.5 (at_time 2) 0 e) in
  (forall y, In y (active_effects e') ->
             (2 - start_time y <= 1.5)%Q /\ (progress y <= 1)%Q
             /\ ((start_time y <= 2)%Q -> (0 <= progress y)%Q))
  /\ (forall x, In x (active_effects e) -> (2 - start_time x <= 1.5)%Q ->
                In (refreshed 1.5 2 x) (active_effects e'))
  /\ (length (active_effects e') <= length (active_effects e))%nat
  /\ (has_active_effects e' = true
      <-> exists x, In x (active_effects e) /\ (2 - start_time x <= 1.5)%Q).
Proof.
  intros render e. apply (effects_after_update render 1.5 2 e).
  - reflexivity.
  - intros x Hx Hexp. unfold render.
    destruct Hx as [<- | [<- | []]]; try discriminate Hexp; reflexivity.
Defined.

(** X17. The life of an effect: if [activate_jutsu] starts the effect of
    jutsu [nm] at time [t0], then an [update_effects] at time [t], with a
    positive [effect_duration] [d], during which the drawing does not raise
    still lists it, with progress [(t - t0) / d], when [t - t0 <= d], and
    lists no effect started at [t0] when [t - t0 > d]. *)
Theorem effect_lifetime
    (render : effect -> option pyexn) (g nm : string) (t0 t d : Q)
    (e : JutsuEngine.t) :
  jutsu_map e !! g = Some nm ->
  (0 < d)%Q ->
  let e1 := snd (call (activate_jutsu g) (at_time t0) e) in
  renders render d t (active_effects e1) ->
  let e2 := snd (update_effects render d (at_time t) 0 e1) in
  ((t - t0 <= d)%Q ->
   In (mk_effect nm t0 ((t - t0) / d)) (active_effects e2))
  /\ ((d < t - t0)%Q ->
      forall y, In y (active_effects e2) -> ~ (start_time y == t0)%Q).
Proof.
  intros Hg Hd. unfold call. rewrite activate_jutsu_eq, Hg. simpl.
  intros Hr. rewrite update_effects_eq by (try lra; exact Hr).
  simpl. unfold at_time. split.
  - intros Hle. apply in_surviving.
    exists (mk_effect nm t0 0.0%Q). split; [|split; [exact Hle|reflexivity]].
    apply in_or_app. right. now left.
  - intros Hlt y Hy Heq. apply in_surviving in Hy.
    destruct Hy as (x & _ & Hx & ->). simpl in Heq. lra.
Qed.

Lemma effect_lifetime_witness :
  let render := fun x : effect =>
                  if Qltb (progress x) 0 then Some CvError else None in
  let e1 := snd (call (activate_jutsu "Fist") (at_time 1) init) in
  let e2 := snd (update_effects render 1.5 (at_time 2) 0 e1) in
  ((2 - 1 <= 1.5)%Q ->
   In (mk_effect "Fire Style: Fireball Jutsu" 1 ((2 - 1) / 1.5))
      (active_effects e2))
  /\ ((1.5 < 2 - 1)%Q ->
      forall y, In y (active_effects e2) -> ~ (start_time y == 1)%Q).
Proof.
  intros render.
  apply (effect_lifetime render "Fist" "Fire Style: Fireball Jutsu"
           1 2 1.5 init).
  - vm_compute. reflexivity.
  - reflexivity.
  - intros x Hx Hexp. unfold render.
    destruct Hx as [<- | []]. reflexivity.
Defined.

Lemma surviving_idem d now l :
  surviving d now (surviving d now l) = surviving d now l.
Proof.
  unfold surviving. induction l as [|x l IH]; [reflexivity|].
  simpl. destruct (expired d now x) eqn:Hx; simpl; [exact IH|].
  change (expired d now (refreshed d now x)) with (expired d now x).
  rewrite Hx. simpl. now rewrite IH.
Qed.

Lemma renders_surviving render d now l :
  renders render d now l -> renders render d now (surviving d now l).
Proof.
  intros Hr y Hy _. apply in_surviving in Hy.
  destruct Hy as (x & Hin & Hx & ->).
  change (refreshed d now (refreshed d now x)) with (refreshed d now x).
  apply Hr; [exact Hin|]. now apply expired_false.
Qed.

(** X18. With a positive [effect_duration], when the drawing raises on
    none of the effects drawn in either call (the two calls may draw on
    different frames), a second [update_effects] at the same clock reading
    changes nothing: the list of effects and their progress depend only on
    the reading, not on how often the frame is redrawn. *)
Theorem update_effects_idempotent
    (render1 render2 : effect -> option pyexn) (d now : Q)
    (e : JutsuEngine.t) :
  (0 < d)%Q ->
  renders render1 d now (active_effects e) ->
  renders render2 d now (active_effects e) ->
  update_effects render2 d (at_time now) 0
    (snd (update_effects render1 d (at_time now) 0 e))
  = (inr tt, 1%nat, snd (update_effects render1 d (at_time now) 0 e)).
Proof.
  intros Hd H1 H2. rewrite (update_effects_eq render1) by (try lra; exact H1).
  simpl snd. rewrite update_effects_eq; [|lra|].
  - simpl. now rewrite surviving_idem.
  - simpl. now apply renders_surviving.
Qed.

Lemma update_effects_idempotent_witness :
  let render := fun x : effect =>
                  if Qltb (progress x) 0 then Some CvError else None in
  let e := mk ∅ [mk_effect "a" 0 0; mk_effect "b" 1 0]%Q in
  update_effects (fun _ => None) 1.5 (at_time 2) 0
    (snd (update_effects render 1.5 (at_time 2) 0 e))
  = (inr tt, 1%nat, snd (update_effects render 1.5 (at_time 2) 0 e)).
Proof.
  intros render e.
  apply (update_effects_idempotent render (fun _ => None) 1.5 2 e).
  - reflexivity.
  - intros x Hx Hexp. unfold render.
    destruct Hx as [<- | [<- | []]]; try discriminate Hexp; reflexivity.
  - intros x _ _. reflexivity.
Defined.

End Effects.

(** ** The keyboard *)

Section Keyboard.
Import JutsuRecognitionApp.

Lemma handle_key_eq k clk n s :
  handle_key k clk n s =
    let key := Z.land k 255 in
    if ((key =? 113) || (key =? 27))%Z then (Ok true, n, s)
    else if (key =? 114)%Z then
      (Ok false, n,
       set_chakra_system (ChakraSystem.reset (chakra_system s)) s)
    else if (key =? 112)%Z then
      (Ok false, n, set_paused (negb (paused s)) s)
    else (Ok false, n, s).
Proof.
  unfold handle_key. change (ord "q") with 113%Z.
  change (ord "r") with 114%Z. change (ord "p") with 112%Z. cbv zeta.
  destruct ((Z.land k 255 =? 113) || (Z.land k 255 =? 27))%Z; [reflexivity|].
  destruct (Z.land k 255 =? 114)%Z; [reflexivity|].
  destruct (Z.land k 255 =? 112)%Z; reflexivity.
Qed.

Lemma land_255 k : Z.land k 255 = (k mod 256)%Z.
Proof. change 255%Z with (Z.ones 8). now rewrite Z.land_ones by lia. Qed.

(** X19. The keyboard handling looks only at the low byte of the value
    of [cv2.waitKey].  It ends the loop exactly for the codes 113 ('q') and
    27 (ESC), and then changes nothing; 114 ('r') resets the chakra system
    and nothing else; 112 ('p') flips [paused] and nothing else, so that two
    presses restore the state; every other value, among them -1 for "no
    key", leaves the state as it is.  No key touches the held gesture, its
    timer, the last jutsu or the effects. *)
Theorem handle_key_spec (k : Z) (clk : Clock) (s : JutsuRecognitionApp.t) :
  let key := (k mod 256)%Z in
  let '(r, s') := call (handle_key k) clk s in
  call (handle_key key) clk s = (r, s')
  /\ (r = Ok true \/ r = Ok false)
  /\ (r = Ok true <-> key = 113%Z \/ key = 27%Z)
  /\ (r = Ok true -> s' = s)
  /\ (key = 114%Z ->
      s' = set_chakra_system (ChakraSystem.reset (chakra_system s)) s)
  /\ (key = 112%Z ->
      s' = set_paused (negb (paused s)) s
      /\ snd (call (handle_key k) clk s') = s)
  /\ (key <> 113%Z -> key <> 27%Z -> key <> 114%Z -> key <> 112%Z -> s' = s)
  /\ last_gesture s' = last_gesture s
  /\ gesture_start_time s' = gesture_start_time s
  /\ last_jutsu s' = last_jutsu s
  /\ jutsu_engine s' = jutsu_engine s.
Proof.
  cbv zeta. unfold call. rewrite !handle_key_eq. cbv zeta.
  rewrite !land_255. rewrite Z.mod_mod by lia.
  set (key := (k mod 256)%Z).
  destruct (Z.eqb_spec key 113) as [E1|E1];
    [|destruct (Z.eqb_spec key 27) as [E2|E2];
      [|destruct (Z.eqb_spec key 114) as [E3|E3];
        [|destruct (Z.eqb_spec key 112) as [E4|E4]]]];
    simpl orb; cbv iota.
  - repeat split; auto; intros; lia.
  - repeat split; auto; intros; lia.
  - repeat split; auto; try (intros; lia); try discriminate.
  - repeat split; auto; try (intros; lia); try discriminate.
    rewrite handle_key_eq. cbv zeta. rewrite land_255. fold key.
    destruct (Z.eqb_spec key 113); [lia|].
    destruct (Z.eqb_spec key 27); [lia|].
    destruct (Z.eqb_spec key 114); [lia|].
    destruct (Z.eqb_spec key 112); [|lia].
    simpl. destruct s as [je cs lg lj st hd pa]. simpl.
    now rewrite negb_involutive.
  - repeat split; auto; try (intros; lia); try discriminate.
Qed.

Lemma handle_key_spec_witness :
  call (handle_key (-1)) (at_time 0) init = (Ok false, init)
  /\ snd (call (handle_key 112) (at_time 0)
            (snd (call (handle_key 112) (at_time 0) init)))
     = init.
Proof.
  pose proof (handle_key_spec (-1) (at_time 0) init) as Hn.
  pose proof (handle_key_spec 112 (at_time 0) init) as Hp.
  cbv zeta in Hn, Hp.
  destruct (call (handle_key (-1)) (at_time 0) init) as [r s'].
  destruct (call (handle_key 112) (at_time 0) init) as [rp sp].
  destruct Hn as (_ & Hr & Hq & _ & _ & _ & Hs & _).
  destruct Hp as (_ & _ & _ & _ & _ & Hpp & _).
  split.
  - rewrite Hs by discriminate.
    destruct Hr as [-> | ->]; [|reflexivity].
    destruct (proj1 Hq eq_refl); discriminate.
  - apply Hpp. reflexivity.
Defined.

End Keyboard.

(** ** What a call of [process_gesture] spends *)

Section Spending.
Import JutsuRecognitionApp.

(** X20. A call of [process_gesture] that does not report a confirmation
    leaves the chakra system, the effects, the last jutsu and the pause
    flag untouched: chakra is spent and effects are started only by a
    call that completes a hold. *)
Theorem no_confirmation_no_spending
    (g : option string) (clk : Clock) (s : JutsuRecognitionApp.t) :
  let '(r, s') := call (update g) clk s in
  r = Ok None ->
  chakra_system s' = chakra_system s
  /\ jutsu_engine s' = jutsu_engine s
  /\ last_jutsu s' = last_jutsu s
  /\ paused s' = paused s.
Proof.
  destruct (update_cases g clk s) as (r & s' & E & C). rewrite E.
  destruct C as [Hr | g1 Hg Hk1 Hl1 | g1 Hg Hk1 Hl1 Ht
                | g1 t1 Hg Hk1 Hl1 Hs1 Hnz1 Hlt1
                | g1 t1 s' Hg Hk1 Hl1 Hs1 Hnz1 Hle Hl' Hs' Hd Hp];
    intros Hnone; try discriminate; repeat split.
Qed.

Lemma process_gesture_at_threshold clk n s g t0 :
  g <> "Unknown" ->
  last_gesture s = Some g ->
  gesture_start_time s = Some t0 ->
  ~ (t0 == 0)%Q ->
  (gesture_hold_duration s <= clk n - t0)%Q ->
  process_gesture (Some g) clk n s
  = (activation_block g;; modify (set_gesture_start_time None)) clk (S n) s.
Proof.
  intros Hk Hl Hs Hnz Hle. unfold process_gesture.
  apply String.eqb_neq in Hk. rewrite Hk.
  rewrite run_bind, run_get.
  rewrite bool_decide_eq_true_2 by congruence.
  change (negb true) with false. cbv iota.
  rewrite (started_truthy s t0 Hs Hnz).
  rewrite run_bind, run_time_time, Hs.
  unfold as_float. rewrite run_bind, run_ret.
  apply Qle_bool_iff in Hle. rewrite Hle. reflexivity.
Qed.

Lemma use_jutsu_inv_at a clk n cs :
  chakra_inv cs -> chakra_inv (snd (ChakraSystem.use_jutsu a clk n cs)).
Proof.
  intros ((Hlo & Hhi) & Hr & Hc).
  destruct (use_jutsu_cases a clk n cs)
    as [((c' & Hc' & Hle & _) & c & n' & Hcost & _ & E) | (_ & n' & E)];
    rewrite E; simpl; [|repeat split; assumption].
  assert (c' = c) as -> by congruence.
  pose proof (Hc a c Hcost) as Hpos.
  repeat split; simpl; try assumption; lra.
Qed.

(** The activation attempt, for any clock: it returns, keeps the hold
    fields, and leaves the chakra system as it was or as one [use_jutsu]
    leaves it. *)
Lemma activation_block_chakra g clk n s :
  exists n' s',
    activation_block g clk n s = (Ok tt, n', s')
    /\ last_gesture s' = last_gesture s
    /\ gesture_start_time s' = gesture_start_time s
    /\ gesture_hold_duration s' = gesture_hold_duration s
    /\ paused s' = paused s
    /\ (chakra_system s' = chakra_system s
        \/ exists n1, chakra_system s'
                      = snd (ChakraSystem.use_jutsu g clk n1 (chakra_system s))).
Proof.
  unfold activation_block, mbind, M_bind, bind, on_chakra, on_engine, zoom.
  destruct (can_use_jutsu_eligible g clk n (chakra_system s))
    as (b & n1 & E1 & _).
  rewrite E1. destruct b; [|simpl; eauto 12].
  cbn [chakra_system set_chakra_system].
  destruct (use_jutsu_total g clk n1 (chakra_system s)) as (u & n2 & c2 & E2).
  assert (Hc2 : c2 = snd (ChakraSystem.use_jutsu g clk n1 (chakra_system s)))
    by now rewrite E2.
  rewrite E2. destruct u; [|simpl; eauto 12].
  cbn [jutsu_engine set_chakra_system].
  destruct (activate_jutsu_total g clk n2 (jutsu_engine s))
    as (r & n3 & e3 & E3).
  rewrite E3. destruct (truthy_str r); simpl; eauto 12.
Qed.

Lemma activation_block_at g now n s :
  exists n' s',
    activation_block g (at_time now) n s = (Ok tt, n', s')
    /\ last_gesture s' = last_gesture s
    /\ gesture_start_time s' = gesture_start_time s
    /\ gesture_hold_duration s' = gesture_hold_duration s
    /\ paused s' = paused s
    /\ (eligible g now (chakra_system s) ->
        chakra_system s'
        = snd (call (ChakraSystem.use_jutsu g) (at_time now) (chakra_system s))
        /\ jutsu_engine s'
           = snd (call (JutsuEngine.activate_jutsu g) (at_time now)
                    (jutsu_engine s))
        /\ last_jutsu s'
           = if truthy_str (JutsuEngine.get_jutsu_name g (jutsu_engine s))
             then JutsuEngine.get_jutsu_name g (jutsu_engine s)
             else last_jutsu s)
    /\ (~ eligible g now (chakra_system s) ->
        chakra_system s' = chakra_system s
        /\ jutsu_engine s' = jutsu_engine s
        /\ last_jutsu s' = last_jutsu s).
Proof.
  unfold activation_block, mbind, M_bind, bind, on_chakra, on_engine, zoom.
  destruct (can_use_jutsu_eligible g (at_time now) n (chakra_system s))
    as (b & n1 & E1 & Hb).
  change (at_time now n) with now in Hb. rewrite E1. destruct b.
  2:{ simpl. eexists _, _. split; [reflexivity|]. repeat split.
      all: match goal with
           | H : eligible _ _ _ |- _ => apply Hb in H; discriminate
           end. }
  pose proof (proj1 Hb eq_refl) as He.
  cbn [chakra_system set_chakra_system].
  destruct (use_jutsu_cases g (at_time now) n1 (chakra_system s))
    as [(_ & c & n2 & Hc & _ & E2) | (Hne & _)];
    [|exfalso; apply Hne; exact He].
  destruct (use_jutsu_cases g (at_time now) 0 (chakra_system s))
    as [(_ & c0 & n0 & Hc0 & _ & E0) | (Hne & _)];
    [|exfalso; apply Hne; exact He].
  assert (c0 = c) as -> by congruence.
  rewrite E2. cbn [jutsu_engine set_chakra_system].
  unfold call, JutsuEngine.get_jutsu_name. rewrite E0.
  rewrite !activate_jutsu_eq.
  destruct (JutsuEngine.jutsu_map (jutsu_engine s) !! g) as [nm|] eqn:Hnm.
  - destruct (truthy_str (Some nm)) eqn:Ht.
    + simpl. eexists _, _. split; [reflexivity|].
      repeat split; try contradiction.
    + simpl. eexists _, _. split; [reflexivity|].
      repeat split; try contradiction.
  - simpl. eexists _, _. split; [reflexivity|].
    repeat split; try contradiction.
Qed.

(** X21. What completing a hold does.  When [process_gesture] is called
    at time [now] with the held label [g], the timer started at a non-zero
    [t0] and [now - t0 >= gesture_hold_duration]: if [g] can be activated
    at [now], the chakra system is left as [use_jutsu g] leaves it (cost
    spent, cooldown started), the engine as [activate_jutsu g] leaves it,
    and [last_jutsu] becomes the jutsu name of [g] when it has a non-empty
    one; if [g] cannot be activated, only the timer is cleared.  In both
    cases the call returns normally. *)
Theorem hold_completion
    (g : string) (t0 now : Q) (s : JutsuRecognitionApp.t) :
  g <> "Unknown" ->
  last_gesture s = Some g ->
  gesture_start_time s = Some t0 ->
  ~ (t0 == 0)%Q ->
  (gesture_hold_duration s <= now - t0)%Q ->
  let '(r, s') := call (process_gesture (Some g)) (at_time now) s in
  r = Ok tt
  /\ (eligible g now (chakra_system s) ->
      chakra_system s'
      = snd (call (ChakraSystem.use_jutsu g) (at_time now) (chakra_system s))
      /\ jutsu_engine s'
         = snd (call (JutsuEngine.activate_jutsu g) (at_time now)
                  (jutsu_engine s))
      /\ last_jutsu s'
         = (if truthy_str (JutsuEngine.get_jutsu_name g (jutsu_engine s))
            then JutsuEngine.get_jutsu_name g (jutsu_engine s)
            else last_jutsu s))
  /\ (~ eligible g now (chakra_system s) ->
      s' = set_gesture_start_time None s).
Proof.
  intros Hk Hl Hs Hnz Hle. unfold call.
  rewrite (process_gesture_at_threshold (at_time now) 0 s g t0)
    by assumption.
  rewrite run_bind.
  destruct (activation_block_at g now 1 s)
    as (n' & s' & E & Hl' & Hs' & Hd & Hp & Hyes & Hno).
  rewrite E. rewrite run_modify. split; [reflexivity|]. split.
  - intros He. destruct (Hyes He) as (H1 & H2 & H3). simpl. auto.
  - intros Hne. destruct (Hno Hne) as (H1 & H2 & H3).
    destruct s as [je cs lg lj st hd pa], s' as [je' cs' lg' lj' st' hd' pa'].
    simpl in *. congruence.
Qed.

Lemma hold_completion_witness :
  let s := snd (call (update (Some "Fist")) (at_time 1.0) init) in
  let '(r, s') := call (process_gesture (Some "Fist")) (at_time 1.5) s in
  r = Ok tt
  /\ (eligible "Fist" 1.5 (chakra_system s) ->
      chakra_system s'
      = snd (call (ChakraSystem.use_jutsu "Fist") (at_time 1.5)
               (chakra_system s))
      /\ jutsu_engine s'
         = snd (call (JutsuEngine.activate_jutsu "Fist") (at_time 1.5)
                  (jutsu_engine s))
      /\ last_jutsu s'
         = (if truthy_str (JutsuEngine.get_jutsu_name "Fist" (jutsu_engine s))
            then JutsuEngine.get_jutsu_name "Fist" (jutsu_engine s)
            else last_jutsu s))
  /\ (~ eligible "Fist" 1.5 (chakra_system s) ->
      s' = set_gesture_start_time None s).
Proof.
  intros s. apply (hold_completion "Fist" 1.0 1.5 s).
  - discriminate.
  - vm_compute. reflexivity.
  - vm_compute. reflexivity.
  - discriminate.
  - vm_compute. discriminate.
Defined.

Lemma no_confirmation_no_spending_witness :
  let s := snd (call (update (Some "Fist")) (at_time 1.0) init) in
  let s' := snd (call (update (Some "Fist")) (at_time 1.2) s) in
  chakra_system s' = chakra_system s
  /\ jutsu_engine s' = jutsu_engine s
  /\ last_jutsu s' = last_jutsu s
  /\ paused s' = paused s.
Proof.
  intros s.
  pose proof (no_confirmation_no_spending (Some "Fist") (at_time 1.2) s) as H.
  assert (Hr : fst (call (update (Some "Fist")) (at_time 1.2) s) = Ok None)
    by (vm_compute; reflexivity).
  destruct (call (update (Some "Fist")) (at_time 1.2) s) as [r s'].
  simpl in Hr. simpl. apply H. exact Hr.
Defined.

End Spending.

(** ** Frames and keys *)

Section Loop.
Import JutsuRecognitionApp.

Lemma process_gesture_inv g clk n s :
  app_inv s ->
  exists n' s', process_gesture g clk n s = (Ok tt, n', s') /\ app_inv s'.
Proof.
  intros [Hc Hh].
  destruct g as [g0|].
  2:{ rewrite process_gesture_absent. eexists _, _.
      split; [reflexivity|]. split; [exact Hc|]. simpl. congruence. }
  destruct (String.eqb_spec g0 "Unknown") as [->|Hk].
  { rewrite process_gesture_unknown. eexists _, _.
    split; [reflexivity|]. split; [exact Hc|]. simpl. congruence. }
  destruct (decide (last_gesture s = Some g0)) as [Hl|Hl].
  2:{ rewrite process_gesture_new by assumption. eexists _, _.
      split; [reflexivity|]. split; [exact Hc|]. simpl. discriminate. }
  destruct (truthy_num (gesture_start_time s)) eqn:Ht.
  2:{ rewrite process_gesture_stalled by assumption. eexists _, _.
      split; [reflexivity|]. split; assumption. }
  destruct (gesture_start_time s) as [t0|] eqn:Hs; [|discriminate].
  assert (Hnz : ~ (t0 == 0)%Q).
  { intros H. apply Qeq_bool_iff in H. simpl in Ht. now rewrite H in Ht. }
  destruct (Qlt_le_dec (clk n - t0) (gesture_hold_duration s)) as [Hlt|Hle].
  { rewrite (process_gesture_waiting clk n s g0 Hk t0) by assumption.
    eexists _, _. split; [reflexivity|]. split; [exact Hc|].
    rewrite Hs. exact Hh. }
  rewrite (process_gesture_at_threshold clk n s g0 t0) by assumption.
  rewrite run_bind.
  destruct (activation_block_chakra g0 clk (S n) s)
    as (n' & s' & E & Hl' & Hs' & Hd & Hp & Hcs).
  rewrite E, run_modify. eexists _, _. split; [reflexivity|]. split.
  - simpl. destruct Hcs as [-> | (n1 & ->)]; [exact Hc|].
    now apply use_jutsu_inv_at.
  - simpl. congruence.
Qed.

Lemma run_tick_inv g clk s :
  app_inv s ->
  exists s', call (run_tick g) clk s = (Ok tt, s') /\ app_inv s'.
Proof.
  intros Hs. unfold call. rewrite run_tick_eq.
  destruct (paused s); [eauto|].
  rewrite run_bind.
  assert (H : exists n' s',
             (if truthy_str g then process_gesture g else ret tt) clk 0%nat s
             = (Ok tt, n', s') /\ app_inv s').
  { destruct (truthy_str g); [now apply process_gesture_inv|].
    eexists _, _. split; [reflexivity|exact Hs]. }
  destruct H as (n' & s' & -> & [Hc Hh]).
  eexists. split; [reflexivity|]. split; [|exact Hh].
  simpl. now apply regenerate_inv.
Qed.

Lemma handle_key_inv k clk s :
  app_inv s ->
  exists b s', call (handle_key k) clk s = (Ok b, s') /\ app_inv s'.
Proof.
  intros [Hc Hh]. unfold call. rewrite handle_key_eq. cbv zeta.
  destruct ((Z.land k 255 =? 113) || (Z.land k 255 =? 27))%Z;
    [eexists _, _; split; [reflexivity|split; assumption]|].
  destruct (Z.land k 255 =? 114)%Z.
  { eexists _, _. split; [reflexivity|]. split; [|exact Hh].
    simpl. now apply reset_inv. }
  destruct (Z.land k 255 =? 112)%Z;
    eexists _, _; (split; [reflexivity|split; assumption]).
Qed.

Lemma app_inv_init : app_inv init.
Proof.
  split; [|intros H; now destruct H].
  split; [split; discriminate|]. split; [discriminate|].
  apply init_costs_nonneg.
Qed.

(** X22. The statements of [run] that assign the chakra system, the hold
    and [paused] never raise and keep the state sound.  From a state whose
    chakra system has its level within [0, max_chakra], a non-negative
    regeneration rate and non-negative costs, and whose hold timer is set
    only with a held label, every series of gesture steps (the gate of
    line 204 with [if gesture: self.process_gesture(gesture)] and
    [self.chakra_system.regenerate()], lines 209-213, for any value
    returned by [get_gesture] and any clock) and key steps (lines 225-235,
    for any value of [cv2.waitKey]) returns normally, with no [KeyError]
    from the cost table in particular, and ends in a state with the same
    properties.  This is a statement about these steps, not about whole
    iterations of the loop: [calculate_fps], [get_gesture] and
    [update_effects] can raise and then end the loop; they assign none of
    the fields the properties mention, and the statement holds from any
    state of the engine. *)
Theorem app_run_safe (events : list app_event) (s : JutsuRecognitionApp.t) :
  app_inv s ->
  exists s', app_run events s = Some s' /\ app_inv s'.
Proof.
  revert s. induction events as [|[g clk | k] events IH]; intros s Hs.
  - exists s. split; [reflexivity|exact Hs].
  - simpl. destruct (run_tick_inv g clk s Hs) as (s' & -> & Hs').
    now apply IH.
  - simpl. destruct (handle_key_inv k (at_time 0) s Hs) as (b & s' & -> & Hs').
    destruct b; [|now apply IH].
    exists s'. split; [reflexivity|exact Hs'].
Qed.

Lemma app_run_safe_witness :
  exists s',
    app_run [EvGesture (Some "Fist") (at_time 1.0);
             EvGesture None (at_time 1.2);
             EvKey 112; EvGesture (Some "Fist") (at_time 1.4); EvKey 112;
             EvGesture (Some "Fist") (at_time 1.6); EvKey 114; EvKey (-1);
             EvKey 27; EvGesture (Some "Point") (at_time 2.0)]
            init
    = Some s'
    /\ app_inv s'.
Proof.
  apply (app_run_safe _ init). exact app_inv_init.
Defined.

End Loop.

(** ** The frame rate *)

Section FrameRate.
Import JutsuRecognitionApp.

Lemma int_of_floor x : (0 <= x)%Q -> int_of x = Qfloor x.
Proof.
  destruct x as [num den]. unfold int_of, Qfloor, Qle. simpl.
  intros H. apply Z.quot_div_nonneg; lia.
Qed.

Lemma int_of_nonpos x : (x <= 0)%Q -> (int_of x <= 0)%Z.
Proof.
  destruct x as [num den]. unfold int_of, Qle. simpl. intros H.
  assert (Hn : (num <= 0)%Z) by lia.
  pose proof (Z.quot_pos (- num) (Z.pos den)) as Hq.
  rewrite Z.quot_opp_l in Hq by lia. lia.
Qed.

(** X23. [calculate_fps] raises [ZeroDivisionError], and leaves
    [prev_time] and [fps] as they were, when the clock reads the same value
    as at the previous frame.  When the clock has advanced by [dt > 0],
    [prev_time] becomes the new reading and [fps] the integer part of
    [1 / dt]: a non-negative integer [f] with [f <= 1 / dt < f + 1].  When
    the clock has gone back, [fps] is zero or negative. *)
Theorem calculate_fps_spec (clk : Clock) (n : nat) (c : fps_counter) :
  ((clk n == prev_time c)%Q ->
   calculate_fps clk n c = (inl ZeroDivisionError, S n, c))
  /\ ((prev_time c < clk n)%Q ->
      exists f,
        calculate_fps clk n c = (inr tt, S n, mk_fps_counter (clk n) f)
        /\ (0 <= f)%Z
        /\ (inject_Z f <= 1 / (clk n - prev_time c))%Q
        /\ (1 / (clk n - prev_time c) < inject_Z f + 1)%Q)
  /\ ((clk n < prev_time c)%Q ->
      exists f,
        calculate_fps clk n c = (inr tt, S n, mk_fps_counter (clk n) f)
        /\ (f <= 0)%Z).
Proof.
  unfold calculate_fps. cbv zeta. split; [|split].
  - intros Heq.
    assert (H : Qeq_bool (clk n - prev_time c) 0 = true)
      by (apply Qeq_bool_iff; lra).
    now rewrite H.
  - intros Hlt.
    assert (H : Qeq_bool (clk n - prev_time c) 0 = false).
    { destruct (Qeq_bool (clk n - prev_time c) 0) eqn:E; [|reflexivity].
      apply Qeq_bool_iff in E. lra. }
    rewrite H. eexists. split; [reflexivity|].
    assert (Hpos : (0 < 1 / (clk n - prev_time c))%Q)
      by (apply Qlt_shift_div_l; lra).
    rewrite int_of_floor by lra. split; [|split].
    + assert (Hz : (Qfloor 0 <= Qfloor (1 / (clk n - prev_time c)))%Z)
        by (apply Qfloor_resp_le; lra).
      exact Hz.
    + apply Qfloor_le.
    + pose proof (Qlt_floor (1 / (clk n - prev_time c))) as Hf.
      rewrite inject_Z_plus in Hf. exact Hf.
  - intros Hlt.
    assert (H : Qeq_bool (clk n - prev_time c) 0 = false).
    { destruct (Qeq_bool (clk n - prev_time c) 0) eqn:E; [|reflexivity].
      apply Qeq_bool_iff in E. lra. }
    rewrite H. eexists. split; [reflexivity|].
    apply int_of_nonpos.
    assert (Hneg : (0 < 1 / (prev_time c - clk n))%Q)
      by (apply Qlt_shift_div_l; lra).
    assert (Hopp : (1 / (clk n - prev_time c)
                    == - (1 / (prev_time c - clk n)))%Q)
      by (field; split; lra).
    lra.
Qed.

Lemma calculate_fps_spec_witness :
  exists f,
    calculate_fps (at_time 1.04) 0 (mk_fps_counter 1 0)
    = (inr tt, 1%nat, mk_fps_counter 1.04 f)
    /\ (0 <= f)%Z
    /\ (inject_Z f <= 1 / (1.04 - 1))%Q
    /\ (1 / (1.04 - 1) < inject_Z f + 1)%Q.
Proof.
  apply (calculate_fps_spec (at_time 1.04) 0 (mk_fps_counter 1 0)).
  reflexivity.
Defined.

End FrameRate.

(** ** A hold across frames *)

Section HoldAcrossFrames.
Import JutsuRecognitionApp.

Lemma update_waiting g t0 now s :
  g <> "Unknown" -> last_gesture s = Some g ->
  gesture_start_time s = Some t0 -> ~ (t0 == 0)%Q ->
  (now - t0 < gesture_hold_duration s)%Q ->
  call (update (Some g)) (at_time now) s = (Ok None, s).
Proof.
  intros Hk Hl Hs Hnz Hlt. unfold call. rewrite update_eq.
  rewrite (process_gesture_waiting (at_time now) 0 s g Hk t0) by assumption.
  now rewrite confirmation_same.
Qed.

Lemma waiting_run g t0 waits :
  forall s,
    g <> "Unknown" -> last_gesture s = Some g ->
    gesture_start_time s = Some t0 -> ~ (t0 == 0)%Q ->
    Forall (fun w => (w - t0 < gesture_hold_duration s)%Q) waits ->
    updates (same_label (Some g) (map at_time waits)) s = (silent waits, s).
Proof.
  induction waits as [|w waits IH]; intros s Hk Hl Hs Hnz Hw; [reflexivity|].
  apply Forall_cons in Hw. destruct Hw as [Hw Hws].
  simpl map. rewrite same_label_cons, updates_cons.
  rewrite (update_waiting g t0 w s) by assumption.
  now rewrite IH.
Qed.

(** X25. A hold timed across frames.  When a label [g] other than
    "Unknown" is first observed at a non-zero time [t] (another label or
    none being held), then observed again on any number of frames less than
    [gesture_hold_duration] after [t], and then on a frame at [t'] with
    [t' - t >= gesture_hold_duration], the last frame is the one and only
    frame that confirms [g]: the frames in between neither confirm nor
    restart the timer. *)
Theorem hold_across_frames
    (g : string) (t t' : Q) (waits : list Q) (s : JutsuRecognitionApp.t) :
  g <> "Unknown" ->
  last_gesture s <> Some g ->
  ~ (t == 0)%Q ->
  Forall (fun w => (w - t < gesture_hold_duration s)%Q) waits ->
  (gesture_hold_duration s <= t' - t)%Q ->
  fst (updates ((Some g, at_time t)
                  :: same_label (Some g) (map at_time waits)
                  ++ [(Some g, at_time t')]) s)
  = None :: silent waits ++ [Some g].
Proof.
  intros Hk Hl Hnz Hw Hle. rewrite updates_cons.
  unfold call at 1. rewrite update_eq, process_gesture_new by assumption.
  rewrite confirmation_started.
  set (s1 := set_gesture_start_time (Some (at_time t 0%nat))
               (set_last_gesture (Some g) s)).
  assert (Hrun : updates (same_label (Some g) (map at_time waits)) s1
                 = (silent waits, s1))
    by (apply (waiting_run g t); auto).
  rewrite (updates_app _ _ _ _ _ Hrun)
    by (rewrite length_silent; unfold same_label; now rewrite !length_map).
  assert (Hlast : fst (call (update (Some g)) (at_time t') s1) = Ok (Some g))
    by (apply (hold_confirms_at_threshold g t t' s1); auto).
  rewrite updates_cons.
  destruct (call (update (Some g)) (at_time t') s1) as [r s2].
  simpl in Hlast. subst r. reflexivity.
Qed.

Lemma hold_across_frames_witness :
  fst (updates ((Some "Fist", at_time 1.0)
                  :: same_label (Some "Fist") (map at_time [1.1; 1.3; 1.4]%Q)
                  ++ [(Some "Fist", at_time 1.5)]) init)
  = None :: silent [1.1; 1.3; 1.4]%Q ++ [Some "Fist"].
Proof.
  apply (hold_across_frames "Fist" 1.0 1.5 [1.1; 1.3; 1.4]%Q init).
  - discriminate.
  - discriminate.
  - discriminate.
  - repeat first [apply List.Forall_nil
                 | apply List.Forall_cons; [reflexivity|]].
  - discriminate.
Defined.

End HoldAcrossFrames.

(** ** The hold threshold *)

Section HoldThreshold.
Import JutsuRecognitionApp.

Lemma update_new g T s :
  g <> "Unknown" -> last_gesture s <> Some g ->
  call (update (Some g)) (at_time T) s
  = (Ok None, set_gesture_start_time (Some T) (set_last_gesture (Some g) s)).
Proof.
  intros Hk Hl. unfold call.
  rewrite update_eq, process_gesture_new, confirmation_started by assumption.
  reflexivity.
Qed.

(** C5. A label [g] held across consecutive calls is confirmed on the
    first call whose clock reading [now] has
    [now - gesture_start_time >= gesture_hold_duration], and on no earlier
    call.  The hold starts with the call that first observes [g], at the
    clock reading [T] of that call; [process_gesture] takes no timestamp,
    the readings are those of [time.time()], which is not 0.0.  That call
    reports nothing and stores [g] and [T]; a later call with [g] at a
    reading below the threshold reports nothing and leaves the whole state
    as it is, so the next call meets the same hold; a call with [g] at or
    over the threshold confirms [g].  In particular, with
    [gesture_hold_duration = 0.5], the calls with [g] at [T], [T + 0.3],
    [T + 0.5] and [T + 0.5] report none, none, [g], none in that order. *)
Theorem hold_confirms_on_first_call_over_threshold
    (g : string) (T : Q) (s : JutsuRecognitionApp.t) :
  g <> "Unknown" ->
  last_gesture s <> Some g ->
  ~ (T == 0)%Q ->
  let s1 := snd (call (update (Some g)) (at_time T) s) in
  fst (call (update (Some g)) (at_time T) s) = Ok None
  /\ last_gesture s1 = Some g
  /\ gesture_start_time s1 = Some T
  /\ gesture_hold_duration s1 = gesture_hold_duration s
  /\ (forall now,
        (now - T < gesture_hold_duration s)%Q ->
        call (update (Some g)) (at_time now) s1 = (Ok None, s1))
  /\ (forall now,
        (gesture_hold_duration s <= now - T)%Q ->
        fst (call (update (Some g)) (at_time now) s1) = Ok (Some g))
  /\ ((gesture_hold_duration s == 0.5)%Q ->
      fst (updates [(Some g, at_time T); (Some g, at_time (T + 0.3));
                    (Some g, at_time (T + 0.5)); (Some g, at_time (T + 0.5))]
                   s)
      = [None; None; Some g; None]).
Proof.
  intros Hk Hl Hnz.
  pose proof (update_new g T s Hk Hl) as E1.
  rewrite E1. cbn [fst snd].
  set (s1 := set_gesture_start_time (Some T) (set_last_gesture (Some g) s))
    in *.
  assert (Hwait : forall now,
            (now - T < gesture_hold_duration s)%Q ->
            call (update (Some g)) (at_time now) s1 = (Ok None, s1)).
  { intros now Hlt. now apply (update_waiting g T now s1). }
  assert (Hfire : forall now,
            (gesture_hold_duration s <= now - T)%Q ->
            fst (call (update (Some g)) (at_time now) s1) = Ok (Some g)).
  { intros now Hle. now apply (hold_confirms_at_threshold g T now s1). }
  repeat (split; [reflexivity|]).
  split; [exact Hwait|]. split; [exact Hfire|].
  intros Hd.
  rewrite updates_cons, E1. fold s1.
  rewrite updates_cons, (Hwait (T + 0.3)%Q) by (rewrite Hd; lra).
  rewrite updates_cons.
  pose proof (Hfire (T + 0.5)%Q) as H3.
  destruct (call (update (Some g)) (at_time (T + 0.5)) s1) as [r s2] eqn:E3.
  simpl in H3. rewrite H3 by (rewrite Hd; lra).
  rewrite H3 in E3 by (rewrite Hd; lra).
  destruct (after_confirmation g g (at_time (T + 0.5)) s1 s2 E3)
    as (_ & Hl2 & Hs2).
  rewrite updates_cons, (update_stalled g (at_time (T + 0.5)) s2)
    by (try rewrite Hs2; auto).
  reflexivity.
Qed.

Lemma hold_confirms_on_first_call_over_threshold_witness :
  let T := 1700000000%Q in
  let s1 := snd (call (update (Some "Fist")) (at_time T) init) in
  fst (call (update (Some "Fist")) (at_time T) init) = Ok None
  /\ last_gesture s1 = Some "Fist"
  /\ gesture_start_time s1 = Some T
  /\ gesture_hold_duration s1 = gesture_hold_duration init
  /\ (forall now,
        (now - T < gesture_hold_duration init)%Q ->
        call (update (Some "Fist")) (at_time now) s1 = (Ok None, s1))
  /\ (forall now,
        (gesture_hold_duration init <= now - T)%Q ->
        fst (call (update (Some "Fist")) (at_time now) s1) = Ok (Some "Fist"))
  /\ fst (updates [(Some "Fist", at_time T); (Some "Fist", at_time (T + 0.3));
                   (Some "Fist", at_time (T + 0.5));
                   (Some "Fist", at_time (T + 0.5))]
                  init)
     = [None; None; Some "Fist"; None].
Proof.
  intros T.
  destruct (hold_confirms_on_first_call_over_threshold "Fist" T init)
    as (H1 & H2 & H3 & H4 & H5 & H6 & H7);
    [discriminate | discriminate | discriminate |].
  repeat (split; [assumption|]).
  apply H7. reflexivity.
Defined.

End HoldThreshold.
